(** * daps/model.py: network builder, proposal retrieval and weighted loss

    A shallow embedding of [src/daps/model.py].  Python values are modelled
    as follows.

    - The module is Python 2 code ([/] on two ints is floor division);
      [str] is [string] and [int] is [Z] (unbounded, as in Python).
    - A [float] read by [float(...)] from a configuration string is kept as
      the decimal the literal denotes ([PyDec m e] is [m * 10^e]); the only
      thing [build_mlp] observes of it is its truth value, which is computed
      exactly for the binary64 rounding of that decimal.
    - Array entries ([numpy] floats) are rationals [Q]; rounding to
      [float32]/[float64] is not modelled.  An array is a shape together
      with its entries in row-major order.
    - An exception is a value of [exn]; a computation that can raise returns
      a [result].  [retrieve_proposals] also threads the state of the
      feature-store handle.
    - The loss works over the reals extended with the IEEE special values
      that a logarithm or a product can create ([xreal]).
    - A [lasagne] layer is the constructor call that makes it.  Of the
      library itself two things are modelled: it refuses a shape or a
      parameter array with a dimension that is not positive, and a dense
      layer that is given no nonlinearity applies [rectify]. *)

From Stdlib Require Import String Ascii Bool Arith ZArith QArith Qround Lia.
From Stdlib Require Import Reals Lra.
From Stdlib Require DecimalString DecimalNat.
From Stdlib Require Import List.
Import ListNotations.

Set Implicit Arguments.

Open Scope string_scope.
Open Scope list_scope.
Open Scope Z_scope.

(* ================================================================== *)
(** ** Exceptions and results *)

Inductive exn_kind : Type :=
| ValueError
| AttributeError
| ZeroDivisionError
| IndexError
| IOError.

(** An exception: its class and its message.  The message texts of the
    built-ins ([int], [float], unpacking, [numpy]) are not modelled and are
    left empty; the one message the module itself builds is kept. *)
Record exn : Type := Exn { exn_class : exn_kind; exn_msg : string }.

Inductive result (A : Type) : Type :=
| Ok (a : A)
| Raise (e : exn).

Arguments Ok {A} a.
Arguments Raise {A} e.

Definition rbind {A B : Type} (r : result A) (k : A -> result B) : result B :=
  match r with
  | Ok a => k a
  | Raise e => Raise e
  end.

Declare Scope result_scope.
Delimit Scope result_scope with result.
Notation "x <- r ;; k" := (rbind r (fun x => k))
  (at level 61, r at next level, right associativity) : result_scope.

Definition builtin_error (k : exn_kind) : exn := Exn k "".

(* ================================================================== *)
(** ** Python strings: [startswith], [split], [strip] *)

Module PyStr.

(** [s.startswith(p)] *)
Definition startswith (p s : string) : bool := String.prefix p s.

(** [s.split(sep)] for a one-character separator: every separator cuts. *)
Fixpoint split (sep : ascii) (s : string) : list string :=
  match s with
  | EmptyString => [EmptyString]
  | String c s' =>
      if Ascii.eqb c sep then EmptyString :: split sep s'
      else match split sep s' with
           | [] => [String c EmptyString]
           | w :: ws => String c w :: ws
           end
  end.

(** [s.split(sep, 1)]: only the first separator cuts. *)
Fixpoint split1 (sep : ascii) (s : string) : list string :=
  match s with
  | EmptyString => [EmptyString]
  | String c s' =>
      if Ascii.eqb c sep then [EmptyString; s']
      else match split1 sep s' with
           | [] => [String c EmptyString]
           | w :: ws => String c w :: ws
           end
  end.

(** Subscript [l[i]] for a non-negative literal index. *)
Definition index {A : Type} (l : list A) (i : nat) : result A :=
  match nth_error l i with
  | Some a => Ok a
  | None => Raise (builtin_error IndexError)
  end.

Definition is_space (c : ascii) : bool :=
  let n := nat_of_ascii c in
  (n =? 32)%nat || ((9 <=? n)%nat && (n <=? 13)%nat).

Fixpoint lstrip (s : string) : string :=
  match s with
  | String c s' => if is_space c then lstrip s' else s
  | EmptyString => EmptyString
  end.

Fixpoint rstrip (s : string) : string :=
  match s with
  | EmptyString => EmptyString
  | String c s' =>
      match rstrip s' with
      | EmptyString => if is_space c then EmptyString else String c EmptyString
      | t => String c t
      end
  end.

Definition strip (s : string) : string := rstrip (lstrip s).

Definition is_digit (c : ascii) : bool :=
  let n := nat_of_ascii c in (48 <=? n)%nat && (n <=? 57)%nat.

Definition digit_val (c : ascii) : Z := Z.of_nat (nat_of_ascii c) - 48.

(** The longest prefix of decimal digits, and what follows it. *)
Fixpoint span_digits (s : string) : string * string :=
  match s with
  | String c s' =>
      if is_digit c then let (d, r) := span_digits s' in (String c d, r)
      else (EmptyString, s)
  | EmptyString => (EmptyString, EmptyString)
  end.

Fixpoint digits_value_from (acc : Z) (s : string) : Z :=
  match s with
  | String c s' => digits_value_from (10 * acc + digit_val c) s'
  | EmptyString => acc
  end.

Definition digits_value (s : string) : Z := digits_value_from 0 s.

(** An optional sign: [true] for a minus. *)
Definition take_sign (s : string) : bool * string :=
  match s with
  | String "+" r => (false, r)
  | String "-" r => (true, r)
  | _ => (false, s)
  end.

Definition lower_ascii (c : ascii) : ascii :=
  let n := nat_of_ascii c in
  if (65 <=? n)%nat && (n <=? 90)%nat then ascii_of_nat (n + 32) else c.

Fixpoint lower (s : string) : string :=
  match s with
  | String c s' => String (lower_ascii c) (lower s')
  | EmptyString => EmptyString
  end.

End PyStr.

(* ================================================================== *)
(** ** The built-ins [int(str)] and [float(str)] *)

(** [int(s)] in base 10: surrounding blanks, an optional sign, then digits
    only. *)
Definition py_int (s : string) : result Z :=
  let (neg, d) := PyStr.take_sign (PyStr.strip s) in
  match PyStr.span_digits d with
  | (String c ds, EmptyString) =>
      let v := PyStr.digits_value (String c ds) in
      Ok (if neg then - v else v)
  | _ => Raise (builtin_error ValueError)
  end.

(** A Python float as written: a decimal [m * 10^e], an infinity or a NaN. *)
Inductive pyfloat : Type :=
| PyDec (m : Z) (e : Z)
| PyInf (negative : bool)
| PyNan.

(** The exponent part of a float literal: empty, or [e]/[E], an optional
    sign and at least one digit.  [None] when what is left is neither. *)
Definition float_exponent (s : string) : option Z :=
  match s with
  | EmptyString => Some 0
  | String c r =>
      if Ascii.eqb (PyStr.lower_ascii c) "e" then
        let (neg, d) := PyStr.take_sign r in
        match PyStr.span_digits d with
        | (String c' ds, EmptyString) =>
            let v := PyStr.digits_value (String c' ds) in
            Some (if neg then - v else v)
        | _ => None
        end
      else None
  end.

(** [float(s)]: surrounding blanks, an optional sign, then [inf],
    [infinity], [nan] (any case) or digits with an optional fraction and
    exponent; at least one digit before or after the point. *)
Definition py_float (s : string) : result pyfloat :=
  let (neg, body) := PyStr.take_sign (PyStr.strip s) in
  let low := PyStr.lower body in
  if String.eqb low "inf" || String.eqb low "infinity" then Ok (PyInf neg)
  else if String.eqb low "nan" then Ok PyNan
  else
    let (ip, r1) := PyStr.span_digits body in
    let (fp, r2) := match r1 with
                    | String "." r => PyStr.span_digits r
                    | _ => (EmptyString, r1)
                    end in
    match String.length ip + String.length fp, float_exponent r2 with
    | S _, Some ex =>
        let m := PyStr.digits_value (ip ++ fp)%string in
        Ok (PyDec (if neg then - m else m) (ex - Z.of_nat (String.length fp)))
    | _, _ => Raise (builtin_error ValueError)
    end%nat.

(** Truth value of a float ([if x:]): false exactly for a zero.  A decimal
    rounds to the binary64 zero when it is zero or when its magnitude is at
    most [2^-1075], half the smallest subnormal (ties go to even). *)
Definition float_truth (x : pyfloat) : bool :=
  match x with
  | PyDec m e =>
      if m =? 0 then false
      else if 0 <=? e then true
      else negb (Z.abs m * 2 ^ 1075 <=? 10 ^ (- e))
  | PyInf _ => true
  | PyNan => true
  end.

(* ================================================================== *)
(** ** Layer graphs (the [lasagne] objects the builders create) *)

Inductive nonlinearity : Type := tanh | rectify | sigmoid.

(** A symbolic input variable, known by name only. *)
Definition theano_var : Type := string.

(** The layers the module builds.  A constructor's arguments are the
    arguments the source passes; an argument the source leaves to the
    library's default is [None]. *)
Inductive layer : Type :=
| InputLayer (shape : list (option Z)) (input_var : option theano_var)
| DropoutLayer (incoming : layer) (p : pyfloat)
| DenseLayer (incoming : layer) (num_units : Z) (nonlin : option nonlinearity)
| LSTMLayer (incoming : layer) (num_units : Z) (grad_clipping : Z)
            (nonlin : nonlinearity) (forgetgate_b : pyfloat)
| SliceLayer (incoming : layer) (indices : Z) (axis : Z).

(** What [lasagne] refuses.  [InputLayer] raises [ValueError] when a
    dimension of its shape is given and is not positive, and a layer with
    parameters raises [ValueError] when an array it has to create has a
    dimension that is not positive: the weights of a dense layer are
    [num_inputs] by [num_units], those of an LSTM gate [num_inputs] by
    [num_units] and [num_units] by [num_units].  [num_inputs] is read from
    the shape of the layer below, whose dimensions are positive once that
    layer exists, so what is left to check is [num_units].  Dropout and
    slicing create no array.  The texts of the library's messages are not
    modelled. *)
Definition positive_dim (d : option Z) : bool :=
  match d with
  | Some d => 0 <? d
  | None => true
  end.

Fixpoint accepted (l : layer) : bool :=
  match l with
  | InputLayer shape _ => forallb positive_dim shape
  | DropoutLayer incoming _ => accepted incoming
  | DenseLayer incoming num_units _ => accepted incoming && (0 <? num_units)
  | LSTMLayer incoming num_units _ _ _ => accepted incoming && (0 <? num_units)
  | SliceLayer incoming _ _ => accepted incoming
  end.

(** The outcome of the calls that create the layers of [l]: the layers, or
    the library's [ValueError]. *)
Definition constructed (l : layer) : result layer :=
  if accepted l then Ok l else Raise (builtin_error ValueError).



(** [for _ in range(n): network = f(network)] *)
Definition repeat_layers (n : Z) (f : layer -> layer) (network : layer) : layer :=
  Nat.iter (Z.to_nat n) f network.

(** [build_lstm], lines 11-28: the layers the calls stack.  Whether the
    library creates them is [constructed]. *)
Definition build_lstm (input_var : option theano_var) (seq_length depth width : Z)
    (input_size grad_clip : Z) (forget_bias : pyfloat) : layer :=
  let network := InputLayer [None; Some seq_length; Some input_size] input_var in
  let nonlin := tanh in
  let network :=
    repeat_layers depth
      (fun network => LSTMLayer network width grad_clip nonlin forget_bias)
      network in
  SliceLayer network (-1) 1.

(** [build_mlp], lines 31-49: the layers the calls stack.  Whether the
    library creates them is [constructed]. *)
Definition build_mlp (input_var : option theano_var) (depth width : Z)
    (drop_input drop_hidden : pyfloat) (input_size : Z) : layer :=
  let network := InputLayer [None; Some input_size] input_var in
  let network :=
    if float_truth drop_input then DropoutLayer network drop_input
    else network in
  let nonlin := rectify in
  repeat_layers depth
    (fun network =>
       let network := DenseLayer network width (Some nonlin) in
       if float_truth drop_hidden then DropoutLayer network drop_hidden
       else network)
    network.

(** Defaults of the keyword arguments. *)
Definition build_mlp_default_drop_hidden : pyfloat := PyDec 5 (-1).   (* .5 *)
Definition default_input_size : Z := 4096.
Definition default_grad_clip : Z := 100.
Definition build_model_default_forget_bias : pyfloat := PyDec 10 (-1). (* 1.0 *)

(** [model_prm.startswith] when [model_prm] may be the default [None]:
    [None] has no such attribute. *)
Definition attribute_of (model_prm : option string) : result string :=
  match model_prm with
  | Some s => Ok s
  | None => Raise (builtin_error AttributeError)
  end.

(** [build_model], lines 52-74.  The unpacking of [user_prm] needs exactly
    five (mlp) or four (lstm) fields.  Arguments are evaluated left to
    right, so [int(depth)] is read before [int(width)], and [n_outputs] is
    converted last (line 71).  The call of [build_mlp] passes no
    [drop_hidden], so that parameter takes its default.  A builder or a
    head whose layers the library refuses raises the library's
    [ValueError]. *)
Definition build_model (model_prm : option string) (input_var : option theano_var)
    (input_size grad_clip : Z) (forget_bias : pyfloat) : result (layer * layer) :=
  (model_prm <- attribute_of model_prm ;;
   pr <-
     (if PyStr.startswith "mlp:" model_prm then
        tail <- PyStr.index (PyStr.split1 ":" model_prm) 1 ;;
        match PyStr.split "," tail with
        | [n_outputs; depth; width; drop_in; drop_hid] =>
            depth' <- py_int depth ;;
            width' <- py_int width ;;
            drop_in' <- py_float drop_in ;;
            network <- constructed
                         (build_mlp input_var depth' width' drop_in'
                                    build_mlp_default_drop_hidden input_size) ;;
            Ok (n_outputs, network)
        | _ => Raise (builtin_error ValueError)
        end
      else if PyStr.startswith "lstm:" model_prm then
        tail <- PyStr.index (PyStr.split1 ":" model_prm) 1 ;;
        match PyStr.split "," tail with
        | [n_outputs; seq_length; width; depth] =>
            seq_length' <- py_int seq_length ;;
            depth' <- py_int depth ;;
            width' <- py_int width ;;
            network <- constructed
                         (build_lstm input_var seq_length' depth' width'
                                     input_size grad_clip forget_bias) ;;
            Ok (n_outputs, network)
        | _ => Raise (builtin_error ValueError)
        end
      else Raise (Exn ValueError ("Unrecognized model type " ++ model_prm)%string)) ;;
   let (n_outputs, network) := pr : string * layer in
   (* Output layer *)
   let nonlin := sigmoid in
   n_outputs' <- py_int n_outputs ;;
   localization <- constructed (DenseLayer network (n_outputs' * 2) None) ;;
   conf <- constructed (DenseLayer network n_outputs' (Some nonlin)) ;;
   Ok (localization, conf))%result.

(** The trunk [build_mlp] makes for depth 1, width 4 and no input dropout:
    the hidden layer is followed by dropout at the default rate. *)
Definition mlp_trunk_1_4 (input_var : option theano_var) (input_size : Z) : layer :=
  DropoutLayer
    (DenseLayer (InputLayer [None; Some input_size] input_var) 4 (Some rectify))
    build_mlp_default_drop_hidden.

(** The layer a head is attached to. *)
Definition incoming_of (l : layer) : option layer :=
  match l with
  | InputLayer _ _ => None
  | DropoutLayer i _ | DenseLayer i _ _ | LSTMLayer i _ _ _ _ | SliceLayer i _ _ => Some i
  end.


(* ================================================================== *)
(** ** numpy arrays *)

(** A 1-D array is a list.  A 2-D array is its two dimensions and its
    entries in row-major order. *)
Record matrix (A : Type) : Type :=
  Matrix { nrows : nat; ncols : nat; cells : list A }.

(** An array of any rank: its shape and its entries in row-major order. *)
Record ndarray (A : Type) : Type :=
  NdArray { shape : list nat; data : list A }.

Module Np.

(** Entry [m[i, j]] ([d] stands for an entry that does not exist). *)
Definition get {A : Type} (d : A) (m : matrix A) (i j : nat) : A :=
  nth (i * ncols m + j) (cells m) d.

(** [np.arange(start, stop, step)] on integers: [ceil((stop - start) / step)]
    entries when that is positive, none otherwise; a zero step raises. *)
Definition arange (start stop step : Z) : result (list Z) :=
  if step =? 0 then Raise (builtin_error ZeroDivisionError)
  else
    let n := Z.to_nat (- ((start - stop) / step)) in
    Ok (map (fun i => start + Z.of_nat i * step) (seq 0 n)).

(** [np.zeros(n)] *)
Definition zeros (n : nat) : list Q := repeat 0%Q n.

(** [np.stack((a, b))] of two 1-D arrays: they must have the same shape. *)
Definition stack2 {A : Type} (a b : list A) : result (matrix A) :=
  if (length a =? length b)%nat then Ok (Matrix 2 (length a) (a ++ b))
  else Raise (builtin_error ValueError).

(** [m.repeat(k, axis=-1)]: every entry [k] times in a row along the last
    axis. *)
Definition repeat_last {A : Type} (k : nat) (m : matrix A) : matrix A :=
  Matrix (nrows m) (ncols m * k) (flat_map (fun x => repeat x k) (cells m)).

(** [m.T] *)
Definition transpose {A : Type} (d : A) (m : matrix A) : matrix A :=
  Matrix (ncols m) (nrows m)
    (flat_map (fun j => map (fun i => get d m i j) (seq 0 (nrows m)))
              (seq 0 (ncols m))).

(** [m.flatten()] *)
Definition flatten {A : Type} (m : matrix A) : list A := cells m.

Definition map_cells {A B : Type} (f : A -> B) (m : matrix A) : matrix B :=
  Matrix (nrows m) (ncols m) (map f (cells m)).

(** One entry of [x.clip(lo, hi)]. *)
Definition clip1 (lo hi x : Q) : Q :=
  if Qlt_le_dec x lo then lo else if Qlt_le_dec hi x then hi else x.

(** [m.clip(lo, hi)] *)
Definition clip (lo hi : Q) (m : matrix Q) : matrix Q := map_cells (clip1 lo hi) m.

(** [m * t] for a scalar [t] *)
Definition scale (t : Q) (m : matrix Q) : matrix Q :=
  map_cells (fun x => x * t)%Q m.

(** Broadcasting of one axis: equal lengths, or one of them is 1. *)
Definition broadcast_dim (x y : nat) : option nat :=
  if (x =? y)%nat then Some x
  else if (x =? 1)%nat then Some y
  else if (y =? 1)%nat then Some x
  else None.

(** Entry [(i, j)] of [m] broadcast to a larger shape. *)
Definition bget (m : matrix Q) (i j : nat) : Q :=
  get 0%Q m (if (nrows m =? 1)%nat then 0%nat else i)
            (if (ncols m =? 1)%nat then 0%nat else j).

(** [a + b] on 2-D arrays, with numpy's broadcasting. *)
Definition add (a b : matrix Q) : result (matrix Q) :=
  match broadcast_dim (nrows a) (nrows b), broadcast_dim (ncols a) (ncols b) with
  | Some r, Some c =>
      Ok (Matrix r c
            (flat_map (fun i => map (fun j => (bget a i j + bget b i j)%Q) (seq 0 c))
                      (seq 0 r)))
  | _, _ => Raise (builtin_error ValueError)
  end.

(** [m.reshape((-1, 2))]: the row count is inferred from the size. *)
Definition reshape_pairs {A : Type} (m : matrix A) : result (matrix A) :=
  let size := (nrows m * ncols m)%nat in
  if (size mod 2 =? 0)%nat then Ok (Matrix (size / 2) 2 (cells m))
  else Raise (builtin_error ValueError).

(** Truncation toward zero, one entry of [x.astype(int)]. *)
Definition trunc (x : Q) : Z := Z.quot (Qnum x) (Zpos (Qden x)).

(** [m.astype(int)] *)
Definition astype_int (m : matrix Q) : matrix Z := map_cells trunc m.

(** Integers upcast to floats (when stacked with a float array). *)
Definition astype_float (a : list Z) : list Q := map inject_Z a.

Definition size_of (sh : list nat) : nat := fold_right Nat.mul 1%nat sh.

(** [a.reshape(d0, d1, d2)] with the dimensions as the caller computed
    them.  One dimension may be [-1] and is then inferred; any other
    negative dimension raises, and so does a size that does not match. *)
Definition reshape {A : Type} (a : ndarray A) (dims : list Z) : result (ndarray A) :=
  let size := size_of (shape a) in
  let unknown := filter (fun d => d =? -1) dims in
  let known := filter (fun d => negb (d =? -1)) dims in
  if existsb (fun d => d <? 0) known then Raise (builtin_error ValueError)
  else
    let p := size_of (map Z.to_nat known) in
    match unknown with
    | [] =>
        if (p =? size)%nat then Ok (NdArray (map Z.to_nat dims) (data a))
        else Raise (builtin_error ValueError)
    | [_] =>
        if (p =? 0)%nat then Raise (builtin_error ValueError)
        else if (size mod p =? 0)%nat then
          Ok (NdArray (map (fun d => if d =? -1 then (size / p)%nat else Z.to_nat d) dims)
                      (data a))
        else Raise (builtin_error ValueError)
    | _ => Raise (builtin_error ValueError)
    end.

(** The list cut into [n] consecutive pieces of length [k]. *)
Fixpoint chunks {A : Type} (k n : nat) (l : list A) : list (list A) :=
  match n with
  | O => []
  | S n' => firstn k l :: chunks k n' (skipn k l)
  end.

End Np.

(* ================================================================== *)
(** ** The collaborators of [retrieve_proposals] *)

(** The feature-store object [Feature(filename=..., t_size=..., t_stride=...,
    pool_type=...)] of [daps.c3d_encoder]. *)
Record Feature : Type :=
  { filename : option string; t_size : Z; t_stride : Z; pool_type : string }.

(** What [retrieve_proposals] calls and this module does not define.

    - [read_feat fobj video f_init duration]: the pooled feature vector the
      store holds for the window [[f_init, f_init + duration)] of a video,
      or the error the read raises.
    - [feat_dim fobj]: the length of a pooled feature vector.
    - [c2b]: the conversion of one row by [segment_format(., 'c2b')].
    - [get_output l sh x]: the deterministic output of layer [l] of a
      trained network on one sample [x] of shape [sh]
      ([lasagne.layers.get_output(..., deterministic=True)], evaluated). *)
Record externals : Type :=
  { read_feat : Feature -> string -> Z -> Z -> result (list Q);
    feat_dim : Feature -> nat;
    c2b : Q * Q -> Q * Q;
    get_output : layer -> list nat -> list Q -> list Q }.

(** The size of the last axis of a layer's output, as [lasagne] computes
    output shapes. *)
Fixpoint output_units (l : layer) : nat :=
  match l with
  | InputLayer sh _ =>
      match last sh None with Some n => Z.to_nat n | None => 0%nat end
  | DropoutLayer i _ => output_units i
  | DenseLayer _ n _ => Z.to_nat n
  | LSTMLayer _ n _ _ _ => Z.to_nat n
  | SliceLayer i _ _ => output_units i
  end.

(** The state [retrieve_proposals] acts on: whether the feature-store
    handle is open, and what was done with the store so far. *)
Inductive io_event : Type :=
| EvOpen
| EvRead (video_name : string) (f_init_array : list Z) (duration : Z)
| EvClose.

Record world : Type := World { handle_open : bool; trace : list io_event }.

(** A computation that reads and changes the [world] and may raise. *)
Definition M (A : Type) : Type := world -> result A * world.

Definition ret {A : Type} (a : A) : M A := fun w => (Ok a, w).

Definition bind {A B : Type} (m : M A) (k : A -> M B) : M B :=
  fun w =>
    match m w with
    | (Ok a, w') => k a w'
    | (Raise e, w') => (Raise e, w')
    end.

Definition lift {A : Type} (r : result A) : M A := fun w => (r, w).

Declare Scope io_scope.
Delimit Scope io_scope with io.
Notation "x <- m ;; k" := (bind m (fun x => k))
  (at level 61, m at next level, right associativity) : io_scope.
Notation "m ;; k" := (bind m (fun _ => k))
  (at level 61, right associativity) : io_scope.

(** [fobj.open_instance()] *)
Definition open_instance (fobj : Feature) : M unit :=
  fun w => (Ok tt, World true (trace w ++ [EvOpen])).

(** [fobj.close_instance()] *)
Definition close_instance (fobj : Feature) : M unit :=
  fun w => (Ok tt, World false (trace w ++ [EvClose])).

(** All results of a list of reads, or the first error. *)
Fixpoint collect {A : Type} (rs : list (result A)) : result (list A) :=
  match rs with
  | [] => Ok []
  | r :: rs' => (a <- r ;; l <- collect rs' ;; Ok (a :: l))%result
  end.

(** Modelled from the spec: [Feature.read_feat_batch_from_video] of
    [daps.c3d_encoder] is not in this module.  The spec (4.4, step 2; 6)
    has it read, for each offset, a pooled feature vector spanning
    [[offset, offset + duration)], batched across all offsets of one call;
    an empty list of offsets gives an empty batch.  [feature_batch] is what
    the call returns from an open store: a 2-D array with one row per
    offset, or the first error of a read. *)
Definition feature_batch (E : externals) (fobj : Feature) (video_name : string)
    (f_init_array : list Z) (duration : Z) : result (ndarray Q) :=
  (rows <- collect (map (fun f_init => read_feat E fobj video_name f_init duration)
                        f_init_array) ;;
   if forallb (fun r => (length r =? feat_dim E fobj)%nat) rows then
     Ok (NdArray [length rows; feat_dim E fobj] (concat rows))
   else Raise (builtin_error ValueError))%result.

(** Modelled from the spec: the call itself, one batched read of the
    store, which leaves the handle as it is. *)
Definition read_feat_batch_from_video (E : externals) (fobj : Feature)
    (video_name : string) (f_init_array : list Z) (duration : Z) : M (ndarray Q) :=
  fun w =>
    (feature_batch E fobj video_name f_init_array duration,
     World (handle_open w) (trace w ++ [EvRead video_name f_init_array duration])).

(** Modelled from the spec: [segment_format] is [daps.utils.segment.format],
    not in this module.  The spec (4.4, step 6) has it convert raw
    (start, pseudo-width) pairs into boundary format, row by row; [c2b] is
    the conversion of one pair.  An array that is not made of pairs is
    refused. *)
Definition segment_format (E : externals) (X : matrix Q) : result (matrix Q) :=
  if (ncols X =? 2)%nat then
    Ok (Matrix (nrows X) 2
          (flat_map (fun i => let (a, b) := c2b E (Np.get 0%Q X i 0, Np.get 0%Q X i 1) in
                              [a; b])
                    (seq 0 (nrows X))))
  else Raise (builtin_error ValueError).

(** The samples of a batch: the sub-arrays along its first axis. *)
Definition samples_of (input_data : ndarray Q) : list (list Q) :=
  Np.chunks (Np.size_of (tl (shape input_data))) (hd 0%nat (shape input_data))
            (data input_data).

(** The deterministic output of one head on a batch: one row per sample. *)
Definition eval_head (E : externals) (l : layer) (input_data : ndarray Q) : matrix Q :=
  Matrix (hd 0%nat (shape input_data)) (output_units l)
         (flat_map (get_output E l (tl (shape input_data))) (samples_of input_data)).

(** [forward_pass], lines 77-83. *)
Definition forward_pass (E : externals) (network : layer * layer)
    (input_data : ndarray Q) : result (matrix Q * matrix Q) :=
  let l_pred_var := eval_head E (fst network) input_data in
  let y_pred_var := eval_head E (snd network) input_data in
  (loc <- Np.reshape_pairs l_pred_var ;;
   Ok (loc, y_pred_var))%result.

(** Line 136: the window start offsets. *)
Definition f_init_array_of (l_size T stride : Z) : result (list Z) :=
  Np.arange 0 (l_size - T) stride.

(** Lines 139-144: the reshape of the feature stack for a recurrent
    network.  [/] on two ints is floor division and raises on zero. *)
Definition reshape_for_model (model_prm : option string) (feat_stack : ndarray Q)
  : result (ndarray Q) :=
  (model_prm <- attribute_of model_prm ;;
   if PyStr.startswith "lstm:" model_prm then
     tail <- PyStr.index (PyStr.split1 ":" model_prm) 1 ;;
     match PyStr.split "," tail with
     | [n_outputs; seq_length; width; depth] =>
         d0 <- PyStr.index (shape feat_stack) 0 ;;
         d1 <- py_int seq_length ;;
         s1 <- PyStr.index (shape feat_stack) 1 ;;
         d1' <- py_int seq_length ;;
         d2 <- (if d1' =? 0 then Raise (builtin_error ZeroDivisionError)
                else Ok (Z.of_nat s1 / d1')) ;;
         Np.reshape feat_stack [Z.of_nat d0; d1; d2]
     | _ => Raise (builtin_error ValueError)
     end
   else Ok feat_stack)%result.

(** Line 154-155: the window start of every proposal, beside a zero. *)
Definition map_array_of (f_init_array : list Z) (n_segments n_proposals : nat)
  : result (matrix Q) :=
  (stacked <- Np.stack2 (Np.astype_float f_init_array) (Np.zeros n_segments) ;;
   Ok (Np.transpose 0%Q (Np.repeat_last n_proposals stacked)))%result.

(** Line 156: the coordinates handed to [segment_format]. *)
Definition coordinates_of (map_array loc : matrix Q) (T : Z) : result (matrix Q) :=
  Np.add map_array (Np.scale (inject_Z T) (Np.clip 0 1 loc)).

(** Lines 149-158: proposals and scores from the forward pass. *)
Definition generate_proposals (E : externals) (f_init_array : list Z)
    (network : layer * layer) (feat_stack : ndarray Q) (T : Z)
  : result (matrix Z * list Q) :=
  (pr <- forward_pass E network feat_stack ;;
   let (loc, score) := pr : matrix Q * matrix Q in
   let n_proposals := ncols score in
   let n_segments := nrows score in
   let score' := Np.flatten score in
   map_array <- map_array_of f_init_array n_segments n_proposals ;;
   coords <- coordinates_of map_array loc T ;;
   formatted <- segment_format E coords ;;
   let proposal := Np.astype_int formatted in
   Ok (proposal, score'))%result.

(** Lines 131-147: open the store, scan the video, close the store. *)
Definition scan_video (E : externals) (fobj : Feature) (video_name : string)
    (l_size T stride : Z) (model_prm : option string) : M (list Z * ndarray Q) :=
  (open_instance fobj ;;
   f_init_array <- lift (f_init_array_of l_size T stride) ;;
   feat_stack <- read_feat_batch_from_video E fobj video_name f_init_array T ;;
   feat_stack <- lift (reshape_for_model model_prm feat_stack) ;;
   close_instance fobj ;;
   ret (f_init_array, feat_stack))%io.

(** [retrieve_proposals], lines 103-158. *)
Definition retrieve_proposals (E : externals) (video_name : string) (l_size : Z)
    (network : layer * layer) (T stride c3d_size c3d_stride : Z)
    (pool_type : string) (hdf5_dataset : option string)
    (model_prm : option string) : M (matrix Z * list Q) :=
  (* IO interface. *)
  let fobj := Build_Feature hdf5_dataset c3d_size c3d_stride pool_type in
  (sc <- scan_video E fobj video_name l_size T stride model_prm ;;
   let (f_init_array, feat_stack) := sc : list Z * ndarray Q in
   (* Generate proposals. *)
   lift (generate_proposals E f_init_array network feat_stack T))%io.

(** The contract of [lasagne] output shapes: the output of a layer on one
    sample has as many entries as the layer has units. *)
Definition output_shaped (E : externals) (l : layer) : Prop :=
  forall sh x, length (get_output E l sh x) = output_units l.

(** Heads as [build_model] attaches them: two values of localization for
    each confidence value. *)
Definition heads_shaped (E : externals) (network : layer * layer) : Prop :=
  output_shaped E (fst network) /\
  output_shaped E (snd network) /\
  output_units (fst network) = (2 * output_units (snd network))%nat.

(** The output of a head for window [i] of a batch. *)
Definition window_output (E : externals) (l : layer) (input_data : ndarray Q)
    (i : nat) : list Q :=
  get_output E l (tl (shape input_data)) (nth i (samples_of input_data) []).

(** The proposal of one (window, output slot) pair, from the window start
    and the two raw localization values of the slot: clip, scale by [T],
    offset by [(window_start, 0)], convert, truncate. *)
Definition proposal_of (E : externals) (window_start T : Z) (l0 l1 : Q) : Z * Z :=
  let (a, b) := c2b E (inject_Z window_start + Np.clip1 0 1 l0 * inject_Z T,
                       0 + Np.clip1 0 1 l1 * inject_Z T)%Q in
  (Np.trunc a, Np.trunc b).

(** Row [k] of a 2-D array of pairs. *)
Definition row2 {A : Type} (d : A) (m : matrix A) (k : nat) : A * A :=
  (Np.get d m k 0, Np.get d m k 1).

(* ================================================================== *)
(** ** Concrete collaborators, for running the model *)

(** A store whose feature vectors have four entries, the first being the
    window start; a row conversion to (start, start + width); heads that
    answer with values below, inside and above the unit interval. *)
Definition demo_externals : externals :=
  {| read_feat := fun _ _ f_init _ => Ok [inject_Z f_init; 1; 2; 3]%Q;
     feat_dim := fun _ => 4%nat;
     c2b := fun p => (fst p, fst p + snd p)%Q;
     get_output := fun l _ x =>
       map (fun j => (hd 0 x / 100 + inject_Z (Z.of_nat j) / 2 - 1)%Q)
           (seq 0 (output_units l)) |}.

(** The same, over a store whose reads fail. *)
Definition failing_externals : externals :=
  {| read_feat := fun _ _ _ _ => Raise (builtin_error IOError);
     feat_dim := feat_dim demo_externals;
     c2b := c2b demo_externals;
     get_output := get_output demo_externals |}.

Definition demo_network : layer * layer :=
  let trunk := DenseLayer (InputLayer [None; Some 4] None) 4 (Some rectify) in
  (DenseLayer trunk 4 None, DenseLayer trunk 2 (Some sigmoid)).

Definition world0 : world := World false [].

(** A run over a video of 512 frames scanned with stride 100: three
    windows, two proposals each. *)
Definition demo_run : result (matrix Z * list Q) * world :=
  retrieve_proposals demo_externals "v" 512 demo_network 256 100 16 8 "mean"
                     None (Some "mlp:2,1,4,0.0,0.0") world0.

Definition demo_proposal : matrix Z :=
  Matrix 6 2 [0; 0; 0; 128; 100; 228; 356; 612; 456; 712; 456; 712].

Definition demo_score : list Q :=
  Eval vm_compute in
    match fst demo_run with
    | Ok (_, score) => score
    | Raise _ => []
    end.

Definition demo_world : world :=
  World false [EvOpen; EvRead "v" [0; 100; 200] 256; EvClose].

(* ================================================================== *)
(** ** The weighted binary cross-entropy *)

(** A tensor entry: a real number or one of the special values an IEEE
    operation can create.  Rounding and overflow are not modelled. *)
Inductive xreal : Type :=
| Fin (r : R)
| PInf
| NInf
| NaN.

Module X.

(** [x < y]; false whenever a NaN is compared. *)
Definition ltb (x y : xreal) : bool :=
  match x, y with
  | NaN, _ | _, NaN => false
  | Fin a, Fin b => if Rlt_dec a b then true else false
  | Fin _, PInf => true
  | Fin _, NInf => false
  | PInf, _ => false
  | NInf, NInf => false
  | NInf, _ => true
  end.

Definition neg (x : xreal) : xreal :=
  match x with
  | Fin a => Fin (- a)
  | PInf => NInf
  | NInf => PInf
  | NaN => NaN
  end.

Definition add (x y : xreal) : xreal :=
  match x, y with
  | NaN, _ | _, NaN => NaN
  | Fin a, Fin b => Fin (a + b)
  | PInf, NInf | NInf, PInf => NaN
  | PInf, _ | _, PInf => PInf
  | NInf, _ | _, NInf => NInf
  end.

Definition sub (x y : xreal) : xreal := add x (neg y).

(** An infinity times a real: the sign of the product, NaN for zero. *)
Definition scale_inf (positive : bool) (a : R) : xreal :=
  if Rlt_dec 0 a then (if positive then PInf else NInf)
  else if Rlt_dec a 0 then (if positive then NInf else PInf)
  else NaN.

Definition mul (x y : xreal) : xreal :=
  match x, y with
  | NaN, _ | _, NaN => NaN
  | Fin a, Fin b => Fin (a * b)
  | Fin a, PInf | PInf, Fin a => scale_inf true a
  | Fin a, NInf | NInf, Fin a => scale_inf false a
  | PInf, PInf | NInf, NInf => PInf
  | PInf, NInf | NInf, PInf => NInf
  end.

(** [log x]: minus infinity at zero, NaN below. *)
Definition log (x : xreal) : xreal :=
  match x with
  | Fin a => if Rlt_dec 0 a then Fin (ln a)
             else if Rlt_dec a 0 then NaN else NInf
  | PInf => PInf
  | NInf => NaN
  | NaN => NaN
  end.

(** [T.clip(x, lo, hi)]: [lo] if [x < lo], [hi] if [x > hi], else [x]. *)
Definition clip (x lo hi : xreal) : xreal :=
  if ltb x lo then lo else if ltb hi x then hi else x.

(** An elementwise operation on two tensors of the same length. *)
Definition zip_with (f : xreal -> xreal -> xreal) (a b : list xreal)
  : result (list xreal) :=
  if (length a =? length b)%nat then Ok (map (fun p => f (fst p) (snd p)) (combine a b))
  else Raise (builtin_error ValueError).

Definition is_finite (x : xreal) : Prop := exists r : R, x = Fin r.

End X.

(** [EPSILON = 10e-8], line 8. *)
Definition EPSILON : R := 10 * / 10 ^ 8.

(** What [T.clip(x, EPSILON, np.inf)] makes of a real number. *)
Definition clip_below (x : R) : R := if Rlt_dec x EPSILON then EPSILON else x.

(** One entry of the loss, lines 180-182. *)
Definition weigthed_binary_crossentropy1 (prediction target w0 w1 : xreal) : xreal :=
  let pos_log := X.log (X.clip prediction (Fin EPSILON) PInf) in
  let neg_log := X.log (X.clip (X.sub (Fin 1) prediction) (Fin EPSILON) PInf) in
  X.neg (X.add (X.mul (X.mul w1 target) pos_log)
               (X.mul (X.mul w0 (X.sub (Fin 1) target)) neg_log)).

(** [weigthed_binary_crossentropy], lines 161-182, on tensors given by
    their entries; the weights are scalars. *)
Definition weigthed_binary_crossentropy (predictions targets : list xreal)
    (w0 w1 : xreal) : result (list xreal) :=
  let pos_log := map (fun p => X.log (X.clip p (Fin EPSILON) PInf)) predictions in
  let neg_log :=
    map (fun p => X.log (X.clip (X.sub (Fin 1) p) (Fin EPSILON) PInf)) predictions in
  (pos <- X.zip_with X.mul (map (X.mul w1) targets) pos_log ;;
   neg <- X.zip_with X.mul (map (fun t => X.mul w0 (X.sub (Fin 1) t)) targets) neg_log ;;
   total <- X.zip_with X.add pos neg ;;
   Ok (map X.neg total))%result.

(* ================================================================== *)
(** ** The layers of a network, listed *)

(** One layer, without what it sits on. *)
Inductive layer_kind : Type :=
| KInput (shape : list (option Z))
| KDropout (p : pyfloat)
| KDense (num_units : Z) (nonlin : option nonlinearity)
| KLSTM (num_units grad_clipping : Z) (nonlin : nonlinearity) (forgetgate_b : pyfloat)
| KSlice (indices axis : Z).

(** The layers of a chain from the input layer up to [l] (the order in
    which [lasagne.layers.get_all_layers] lists a chain). *)
Fixpoint all_layers (l : layer) : list layer_kind :=
  match l with
  | InputLayer sh _ => [KInput sh]
  | DropoutLayer i p => all_layers i ++ [KDropout p]
  | DenseLayer i n nl => all_layers i ++ [KDense n nl]
  | LSTMLayer i n g nl b => all_layers i ++ [KLSTM n g nl b]
  | SliceLayer i k a => all_layers i ++ [KSlice k a]
  end.

Definition is_dense (k : layer_kind) : bool :=
  match k with KDense _ _ => true | _ => false end.

Definition is_dropout (k : layer_kind) : bool :=
  match k with KDropout _ => true | _ => false end.

Definition is_lstm (k : layer_kind) : bool :=
  match k with KLSTM _ _ _ _ => true | _ => false end.

(** The hidden block [build_mlp] adds in one round of its loop. *)
Definition mlp_block (width : Z) (drop_hidden : pyfloat) : list layer_kind :=
  KDense width (Some rectify)
  :: (if float_truth drop_hidden then [KDropout drop_hidden] else []).

(* ================================================================== *)
(** ** Decimal formatting and configuration strings *)

(** ['%d' % i] for a natural number. *)
Definition py_format_d (i : nat) : string :=
  DecimalString.NilEmpty.string_of_uint (Nat.to_uint i).

(** The configuration string of a recurrent network with the given
    numbers: ["lstm:%d,%d,%d,%d" % (n_outputs, seq_length, width, depth)]. *)
Definition lstm_prm (n_outputs seq_length width depth : nat) : string :=
  ("lstm:" ++ py_format_d n_outputs ++ "," ++ py_format_d seq_length ++ ","
   ++ py_format_d width ++ "," ++ py_format_d depth)%string.

(* ================================================================== *)
(** ** Weight files: [read_model] *)

(** An [.npz] archive: its entries, name and array, in the order of
    [f.files]. *)
Definition npz : Type := list (string * ndarray Q).

(** What [read_model] can raise: [np.load] on a file that does not exist
    ([IOError]), [f[key]] for a name the archive lacks ([KeyError]), and
    whatever [lasagne.layers.set_all_param_values] raises. *)
Inductive load_exn : Type :=
| LoadIOError (filename : string)
| LoadKeyError (key : string)
| LoadSetError (e : exn).

(** The state [read_model] acts on: the archives on disk, the archives
    that are open, and the parameter values of the network. *)
Record weights_world : Type :=
  WeightsWorld { disk : string -> option npz;
                 open_archives : list string;
                 param_values : list (ndarray Q) }.

(** [lasagne.layers.set_all_param_values(network, values)], which this
    module does not define: from the current parameter values, whether it
    raises and the parameter values it leaves. *)
Definition param_setter : Type :=
  layer * layer -> list (ndarray Q) -> list (ndarray Q)
  -> result unit * list (ndarray Q).

(** [f[key]] *)
Definition npz_getitem (f : npz) (key : string) : load_exn + ndarray Q :=
  match find (fun kv => String.eqb (fst kv) key) f with
  | Some kv => inr (snd kv)
  | None => inl (LoadKeyError key)
  end.

(** A list comprehension whose element expression can raise: the values in
    order, or the first error. *)
Fixpoint comprehension {A B : Type} (g : A -> load_exn + B) (l : list A)
  : load_exn + list B :=
  match l with
  | [] => inr []
  | a :: l' =>
      match g a with
      | inl e => inl e
      | inr b =>
          match comprehension g l' with
          | inl e => inl e
          | inr bs => inr (b :: bs)
          end
      end
  end.

(** Line 98: [[f['arr_%d' % i] for i in range(len(f.files))]]. *)
Definition read_param_values (f : npz) : load_exn + list (ndarray Q) :=
  comprehension (fun i => npz_getitem f ("arr_" ++ py_format_d i)%string)
                (seq 0 (length f)).

(** One open handle of [filename] less. *)
Fixpoint close_archive (filename : string) (opened : list string) : list string :=
  match opened with
  | [] => []
  | x :: rest =>
      if String.eqb x filename then rest else x :: close_archive filename rest
  end.

(** [read_model], lines 86-100.  The [with] block closes the archive
    however the block is left; a missing file raises before the block is
    entered.  The result [tt] is the [None] the function returns. *)
Definition read_model (set_all_param_values : param_setter) (filename : string)
    (network : layer * layer) (w : weights_world)
  : (load_exn + unit) * weights_world :=
  match disk w filename with
  | None => (inl (LoadIOError filename), w)
  | Some f =>
      let opened := filename :: open_archives w in
      match read_param_values f with
      | inl e =>
          (inl e, WeightsWorld (disk w) (close_archive filename opened) (param_values w))
      | inr values =>
          let (r, params') := set_all_param_values network values (param_values w) in
          (match r with
           | Ok _ => inr tt
           | Raise e => inl (LoadSetError e)
           end,
           WeightsWorld (disk w) (close_archive filename opened) params')
      end
  end.

(** [np.savez(filename, *values)]: the arrays are stored under the names
    [arr_0], [arr_1], ... *)
Definition np_savez (values : list (ndarray Q)) : npz :=
  map (fun iv => (("arr_" ++ py_format_d (fst iv))%string, snd iv))
      (combine (seq 0 (length values)) values).

(** A setter in the way of [lasagne]: the count of the values and the
    shape of each must match the parameters; the parameters are set one
    after the other, up to the first whose shape differs. *)
Fixpoint demo_set_each (current values : list (ndarray Q))
  : result unit * list (ndarray Q) :=
  match current, values with
  | p :: ps, v :: vs =>
      if list_eq_dec Nat.eq_dec (shape p) (shape v) then
        let (r, ps') := demo_set_each ps vs in (r, v :: ps')
      else (Raise (builtin_error ValueError), p :: ps)
  | _, _ => (Ok tt, current)
  end.

Definition demo_setter : param_setter :=
  fun _ values current =>
    if (length current =? length values)%nat then demo_set_each current values
    else (Raise (builtin_error ValueError), current).

(* ================================================================== *)
(** * Properties *)

Unset Implicit Arguments.

(** ** The network builder *)

Section BuildModel.

Variables (input_var : option theano_var) (input_size grad_clip : Z)
          (forget_bias : pyfloat).

(** C6.  A configuration string that starts with neither "mlp:" nor
    "lstm:" makes [build_model] raise a [ValueError] carrying the string;
    no pair of heads is returned. *)
Theorem build_model_unrecognized_prefix (model_prm : string) :
  PyStr.startswith "mlp:" model_prm = false ->
  PyStr.startswith "lstm:" model_prm = false ->
  build_model (Some model_prm) input_var input_size grad_clip forget_bias
  = Raise (Exn ValueError ("Unrecognized model type " ++ model_prm)%string).
Proof.
  intros Hmlp Hlstm. unfold build_model. cbn [attribute_of rbind].
  rewrite Hmlp, Hlstm. reflexivity.
Qed.

(** What [constructed] returns. *)
Lemma constructed_inv (l l' : layer) :
  constructed l = Ok l' -> l' = l /\ accepted l = true.
Proof.
  unfold constructed. destruct (accepted l); [|discriminate].
  intros H. injection H as <-. now split.
Qed.

Lemma constructed_accepted (l : layer) :
  accepted l = true -> constructed l = Ok l.
Proof. unfold constructed. now intros ->. Qed.




(** C2.  [build_model] unpacks [drop_hid] and never hands it to
    [build_mlp]: with [drop_hid] written as 0.0 the hidden layer is still
    followed by dropout, at [build_mlp]'s default rate .5, and another
    value of [drop_hid] builds the same network.  (The network is built
    when [input_size] is positive; the library refuses another one.) *)
Theorem build_model_mlp_drops_drop_hid :
  py_float "0.0" = Ok (PyDec 0 (-1)) /\
  float_truth (PyDec 0 (-1)) = false /\
  (exists loc conf,
      build_model (Some "mlp:5,1,4,0.0,0.0") input_var input_size grad_clip forget_bias
      = (if 0 <? input_size then Ok (loc, conf)
         else Raise (builtin_error ValueError)) /\
      incoming_of loc
      = Some (DropoutLayer
                (DenseLayer (InputLayer [None; Some input_size] input_var) 4
                            (Some rectify))
                build_mlp_default_drop_hidden) /\
      incoming_of conf = incoming_of loc) /\
  build_model (Some "mlp:5,1,4,0.0,0.9") input_var input_size grad_clip forget_bias
  = build_model (Some "mlp:5,1,4,0.0,0.0") input_var input_size grad_clip forget_bias.
Proof.
  split; [reflexivity|]. split; [reflexivity|]. split.
  - exists (DenseLayer (mlp_trunk_1_4 input_var input_size) 10 None),
           (DenseLayer (mlp_trunk_1_4 input_var input_size) 5 (Some sigmoid)).
    split; [destruct input_size; reflexivity|]. split; reflexivity.
  - destruct input_size; reflexivity.
Qed.

(** What a returned pair of heads says about the call: the configuration
    is a string, the text after its first colon starts with a field that
    [int] reads as [n_outputs], the library accepted the trunk, and
    [n_outputs] is positive. *)
Lemma build_model_inv (model_prm : option string) (loc conf : layer) :
  build_model model_prm input_var input_size grad_clip forget_bias = Ok (loc, conf) ->
  exists prm tail n_field rest network n_outputs,
    model_prm = Some prm /\
    PyStr.index (PyStr.split1 ":" prm) 1 = Ok tail /\
    PyStr.split "," tail = n_field :: rest /\
    py_int n_field = Ok n_outputs /\
    0 < n_outputs /\
    accepted network = true /\
    loc = DenseLayer network (n_outputs * 2) None /\
    conf = DenseLayer network n_outputs (Some sigmoid).
Proof.
  unfold build_model.
  destruct model_prm as [prm|]; [|discriminate]. cbn [attribute_of rbind].
  assert (Hheads : forall (n_field : string) (network : layer),
    accepted network = true ->
    (n_outputs' <- py_int n_field ;;
     localization <- constructed (DenseLayer network (n_outputs' * 2) None) ;;
     conf <- constructed (DenseLayer network n_outputs' (Some sigmoid)) ;;
     Ok (localization, conf))%result = Ok (loc, conf) ->
    exists n_outputs,
      py_int n_field = Ok n_outputs /\ 0 < n_outputs /\
      loc = DenseLayer network (n_outputs * 2) None /\
      conf = DenseLayer network n_outputs (Some sigmoid)).
  { intros n_field network Hacc.
    destruct (py_int n_field) as [n|]; [|discriminate]. cbn [rbind].
    destruct (constructed (DenseLayer network (n * 2) None)) as [l1|] eqn:H1;
      [|discriminate]. cbn [rbind].
    destruct (constructed (DenseLayer network n (Some sigmoid))) as [l2|] eqn:H2;
      [|discriminate]. cbn [rbind].
    apply constructed_inv in H1 as [-> _]. apply constructed_inv in H2 as [-> H2].
    cbn [accepted] in H2. apply andb_prop in H2 as [_ H2]. apply Z.ltb_lt in H2.
    intros H. injection H as <- <-. exists n. now repeat split. }
  destruct (PyStr.startswith "mlp:" prm).
  - destruct (PyStr.index _ 1) as [tail|] eqn:Htail; [|discriminate]. cbn [rbind].
    destruct (PyStr.split "," tail)
      as [|n_field [|depth [|width [|drop_in [|drop_hid [|]]]]]] eqn:Hsplit;
      try discriminate.
    destruct (py_int depth) as [depth'|]; [|discriminate]. cbn [rbind].
    destruct (py_int width) as [width'|]; [|discriminate]. cbn [rbind].
    destruct (py_float drop_in) as [drop_in'|]; [|discriminate]. cbn [rbind].
    destruct (constructed _) as [network|] eqn:Hnet; [|discriminate]. cbn [rbind].
    apply constructed_inv in Hnet as [-> Hacc].
    intros H. destruct (Hheads _ _ Hacc H) as (n & Hn & Hpos & -> & ->).
    now exists prm, tail, n_field, [depth; width; drop_in; drop_hid],
      (build_mlp input_var depth' width' drop_in' build_mlp_default_drop_hidden
                 input_size), n.
  - destruct (PyStr.startswith "lstm:" prm); [|discriminate].
    destruct (PyStr.index _ 1) as [tail|] eqn:Htail; [|discriminate]. cbn [rbind].
    destruct (PyStr.split "," tail)
      as [|n_field [|seq_length [|width [|depth [|]]]]] eqn:Hsplit;
      try discriminate.
    destruct (py_int seq_length) as [seq_length'|]; [|discriminate]. cbn [rbind].
    destruct (py_int depth) as [depth'|]; [|discriminate]. cbn [rbind].
    destruct (py_int width) as [width'|]; [|discriminate]. cbn [rbind].
    destruct (constructed _) as [network|] eqn:Hnet; [|discriminate]. cbn [rbind].
    apply constructed_inv in Hnet as [-> Hacc].
    intros H. destruct (Hheads _ _ Hacc H) as (n & Hn & Hpos & -> & ->).
    now exists prm, tail, n_field, [seq_length; width; depth],
      (build_lstm input_var seq_length' depth' width' input_size grad_clip
                  forget_bias), n.
Qed.

(** Whatever the configuration, the heads [build_model] returns sit on one
    trunk and have [2 * n_outputs] and [n_outputs] units. *)
Lemma build_model_heads (model_prm : option string) (loc conf : layer) :
  build_model model_prm input_var input_size grad_clip forget_bias = Ok (loc, conf) ->
  exists network n_outputs,
    loc = DenseLayer network (n_outputs * 2) None /\
    conf = DenseLayer network n_outputs (Some sigmoid) /\
    output_units loc = (2 * output_units conf)%nat.
Proof.
  intros H.
  destruct (build_model_inv _ _ _ H)
    as (prm & tail & n_field & rest & network & n & _ & _ & _ & _ & _ & _ & -> & ->).
  exists network, n. repeat split. cbn [output_units]. lia.
Qed.

(** The trunk of every feed-forward network [build_model] returns is built
    with [build_mlp]'s default hidden dropout rate, whatever the string
    says. *)
Lemma build_model_mlp_hidden_dropout (prm : string) (loc conf : layer) :
  PyStr.startswith "mlp:" prm = true ->
  build_model (Some prm) input_var input_size grad_clip forget_bias = Ok (loc, conf) ->
  exists depth width drop_in,
    incoming_of loc
    = Some (build_mlp input_var depth width drop_in build_mlp_default_drop_hidden
                      input_size).
Proof.
  intros Hmlp. unfold build_model. cbn [attribute_of rbind]. rewrite Hmlp.
  destruct (PyStr.index _ 1) as [tail|]; [|discriminate]. cbn [rbind].
  destruct (PyStr.split "," tail) as [|n_outputs [|depth [|width [|drop_in [|drop_hid [|]]]]]];
    try discriminate.
  destruct (py_int depth) as [depth'|]; [|discriminate]. cbn [rbind].
  destruct (py_int width) as [width'|]; [|discriminate]. cbn [rbind].
  destruct (py_float drop_in) as [drop_in'|]; [|discriminate]. cbn [rbind].
  destruct (constructed _) as [network|] eqn:Hnet; [|discriminate]. cbn [rbind].
  apply constructed_inv in Hnet as [-> _].
  destruct (py_int n_outputs) as [n|]; [|discriminate]. cbn [rbind].
  destruct (constructed _) as [l1|] eqn:H1; [|discriminate]. cbn [rbind].
  destruct (constructed (DenseLayer _ n _)) as [l2|] eqn:H2; [|discriminate].
  cbn [rbind]. apply constructed_inv in H1 as [-> _].
  intros H. injection H as <- <-. exists depth', width', drop_in'. reflexivity.
Qed.

End BuildModel.


(** Sizes the library refuses: a sequence length of 0, and no output at
    all. *)
Lemma build_model_refused_sizes :
  build_model (Some "lstm:5,0,4,1") None default_input_size default_grad_clip
              build_model_default_forget_bias
  = Raise (builtin_error ValueError) /\
  build_model (Some "mlp:0,1,4,0.0,0.0") None default_input_size default_grad_clip
              build_model_default_forget_bias
  = Raise (builtin_error ValueError).
Proof. split; reflexivity. Qed.

(** [build_model_unrecognized_prefix] on a configuration string with an
    unknown prefix. *)
Lemma build_model_unrecognized_prefix_witness :
  build_model (Some "cnn:5,2,4,0.2,0.5") None default_input_size default_grad_clip
              build_model_default_forget_bias
  = Raise (Exn ValueError "Unrecognized model type cnn:5,2,4,0.2,0.5").
Proof.
  apply (build_model_unrecognized_prefix None default_input_size default_grad_clip
           build_model_default_forget_bias "cnn:5,2,4,0.2,0.5"); reflexivity.
Defined.

(* ================================================================== *)
(** ** The window start offsets *)

Lemma arange_length (start stop step : Z) (offs : list Z) :
  Np.arange start stop step = Ok offs ->
  length offs = Z.to_nat (- ((start - stop) / step)).
Proof.
  unfold Np.arange. destruct (step =? 0); [discriminate|].
  intros H. injection H as <-. now rewrite length_map, length_seq.
Qed.

Lemma arange_nth (start stop step : Z) (offs : list Z) (i : nat) :
  Np.arange start stop step = Ok offs ->
  (i < length offs)%nat ->
  nth i offs 0 = start + Z.of_nat i * step.
Proof.
  unfold Np.arange. destruct (step =? 0); [discriminate|].
  intros H. injection H as <-. rewrite length_map, length_seq. intros Hi.
  rewrite nth_indep with (d' := start + Z.of_nat 0 * step)
    by now rewrite length_map, length_seq.
  rewrite (map_nth (fun i => start + Z.of_nat i * step)).
  now rewrite seq_nth.
Qed.

(** The ceiling of a quotient of positive numbers, two ways. *)
Lemma ceil_div_pos (a s : Z) :
  0 < a -> 0 < s -> - ((0 - a) / s) = (a - 1) / s + 1.
Proof.
  intros Ha Hs.
  pose proof (Z.div_mod (a - 1) s ltac:(lia)) as E.
  pose proof (Z.mod_pos_bound (a - 1) s Hs) as B.
  symmetry. apply Z.opp_inj. rewrite Z.opp_involutive.
  apply Z.div_unique with (r := s - 1 - (a - 1) mod s); [lia|].
  nia.
Qed.

Lemma ceil_div_nondivisible (a s : Z) :
  0 < a -> 0 < s -> a mod s <> 0 -> (a - 1) / s = a / s.
Proof.
  intros Ha Hs Hm.
  pose proof (Z.div_mod a s ltac:(lia)) as E.
  pose proof (Z.mod_pos_bound a s Hs) as B.
  symmetry. apply Z.div_unique with (r := a mod s - 1); lia.
Qed.

Lemma ceil_div_divisible (a s : Z) :
  0 < a -> 0 < s -> a mod s = 0 -> (a - 1) / s = a / s - 1.
Proof.
  intros Ha Hs Hm.
  pose proof (Z.div_mod a s ltac:(lia)) as E.
  symmetry. apply Z.div_unique with (r := s - 1); lia.
Qed.

(** The count [floor((L - T) / stride) + 1] fails where the stride divides
    [L - T]: a video of length 512 scanned with the default window and
    stride has the two offsets 0 and 128, and the claimed count is 3. *)
Lemma window_count_floor_plus_one_fails :
  f_init_array_of 512 256 128 = Ok [0; 128] /\
  Z.of_nat (length [0; 128]) = 2 /\
  (512 - 256) / 128 + 1 = 3 /\
  Z.of_nat (length [0; 128]) <> (512 - 256) / 128 + 1.
Proof. repeat split. discriminate. Qed.

(** C1, amended.  For [L > T] and a positive stride the offsets are
    computed without error and there are [floor((L - T - 1) / stride) + 1]
    of them, that is [ceil((L - T) / stride)]: the claimed
    [floor((L - T) / stride) + 1] when the stride does not divide [L - T],
    and one less when it does. *)
Theorem window_count (L T stride : Z) :
  T < L -> 0 < stride ->
  exists offs,
    f_init_array_of L T stride = Ok offs /\
    Z.of_nat (length offs) = (L - T - 1) / stride + 1 /\
    ((L - T) mod stride <> 0 ->
     Z.of_nat (length offs) = (L - T) / stride + 1) /\
    ((L - T) mod stride = 0 ->
     Z.of_nat (length offs) = (L - T) / stride).
Proof.
  intros HL Hs. unfold f_init_array_of.
  destruct (Np.arange 0 (L - T) stride) as [offs|e] eqn:E.
  2:{ unfold Np.arange in E.
      destruct (Z.eqb_spec stride 0); [lia | discriminate]. }
  exists offs. split; [reflexivity|].
  rewrite (arange_length _ _ _ _ E), ceil_div_pos by lia.
  assert (0 <= (L - T - 1) / stride) by (apply Z.div_pos; lia).
  rewrite Z2Nat.id by lia.
  split; [reflexivity|]. split.
  - intros Hm. rewrite <- (ceil_div_nondivisible (L - T) stride); lia.
  - intros Hm. rewrite (ceil_div_divisible (L - T) stride); lia.
Qed.

(** [window_count] at a video of 600 frames with the default window and
    stride. *)
Lemma window_count_witness :
  exists offs,
    f_init_array_of 600 256 128 = Ok offs /\
    Z.of_nat (length offs) = (600 - 256 - 1) / 128 + 1 /\
    ((600 - 256) mod 128 <> 0 ->
     Z.of_nat (length offs) = (600 - 256) / 128 + 1) /\
    ((600 - 256) mod 128 = 0 ->
     Z.of_nat (length offs) = (600 - 256) / 128).
Proof. apply (window_count 600 256 128); lia. Defined.

(* ================================================================== *)
(** ** Lists made of pieces of one length *)

Section Pieces.

Context {A B : Type}.
Variables (h : A -> list B) (c : nat).

Lemma nth_flat_map_pieces (l : list A) (d : B) (d0 : A) (i j : nat) :
  (forall x, In x l -> length (h x) = c) ->
  (i < length l)%nat -> (j < c)%nat ->
  nth (i * c + j) (flat_map h l) d = nth j (h (nth i l d0)) d.
Proof.
  revert i. induction l as [|a l IH]; intros i Hlen Hi Hj; simpl in Hi; [lia|].
  cbn [flat_map].
  destruct i as [|i].
  - cbn [nth Nat.mul Nat.add]. apply app_nth1. rewrite Hlen; [assumption | now left].
  - rewrite app_nth2; rewrite (Hlen a) by now left.
    + replace (S i * c + j - c)%nat with (i * c + j)%nat by lia.
      cbn [nth]. apply IH; [intros x Hx; apply Hlen; now right | lia | assumption].
    + lia.
Qed.

Lemma length_flat_map_pieces (l : list A) :
  (forall x, In x l -> length (h x) = c) ->
  length (flat_map h l) = (length l * c)%nat.
Proof.
  induction l as [|a l IH]; intros Hlen; [reflexivity|].
  cbn [flat_map length]. rewrite length_app, Hlen by now left.
  rewrite IH by (intros x Hx; apply Hlen; now right). lia.
Qed.

End Pieces.

(** An index into [n] pieces of length [p]: the piece and the place in it. *)
Lemma split_index (k n p : nat) :
  (k < n * p)%nat ->
  k = (k / p * p + k mod p)%nat /\ (k / p < n)%nat /\ (k mod p < p)%nat.
Proof.
  intros Hk. assert (p <> 0)%nat by (intros ->; lia).
  pose proof (Nat.div_mod_eq k p). pose proof (Nat.mod_upper_bound k p ltac:(assumption)).
  repeat split; [lia | | assumption].
  apply Nat.Div0.div_lt_upper_bound. lia.
Qed.

Lemma nth_repeat_each {A : Type} (l : list A) (p k : nat) (d : A) :
  (k < length l * p)%nat ->
  nth k (flat_map (fun x => repeat x p) l) d = nth (k / p) l d.
Proof.
  intros Hk. destruct (split_index _ _ _ Hk) as (Ek & Hq & Hr).
  rewrite Ek at 1.
  rewrite nth_flat_map_pieces with (d0 := d); try assumption.
  - now apply nth_repeat_lt.
  - intros x _. apply repeat_length.
Qed.

Lemma length_chunks {A : Type} (k n : nat) (l : list A) :
  length (Np.chunks k n l) = n.
Proof. revert l. induction n; intros l; simpl; [reflexivity | now rewrite IHn]. Qed.

(* ================================================================== *)
(** ** The arrays [retrieve_proposals] builds *)

(** Entry [(i, j)] of a 2-D array given row by row. *)
Lemma get_rows {A : Type} (f : nat -> list A) (r c i j : nat) (d : A) :
  (forall i, length (f i) = c) ->
  (i < r)%nat -> (j < c)%nat ->
  Np.get d (Matrix r c (flat_map f (seq 0 r))) i j = nth j (f i) d.
Proof.
  intros Hlen Hi Hj. unfold Np.get. cbn [ncols cells].
  rewrite nth_flat_map_pieces with (d0 := 0%nat); auto.
  - now rewrite seq_nth.
  - now rewrite length_seq.
Qed.

Lemma stack2_inv {A : Type} (a b : list A) (m : matrix A) :
  Np.stack2 a b = Ok m -> length a = length b /\ m = Matrix 2 (length a) (a ++ b).
Proof.
  unfold Np.stack2. destruct (Nat.eqb_spec (length a) (length b)); [|discriminate].
  intros H. injection H as <-. auto.
Qed.

(** [map_array]: one row per (window, proposal), holding the window start
    and a zero. *)
Lemma map_array_of_inv (f_init_array : list Z) (n_segments n_proposals : nat)
    (map_array : matrix Q) :
  map_array_of f_init_array n_segments n_proposals = Ok map_array ->
  length f_init_array = n_segments /\
  nrows map_array = (n_segments * n_proposals)%nat /\
  ncols map_array = 2%nat /\
  forall k, (k < n_segments * n_proposals)%nat ->
    Np.get 0%Q map_array k 0 = inject_Z (nth (k / n_proposals) f_init_array 0) /\
    Np.get 0%Q map_array k 1 = 0%Q.
Proof.
  unfold map_array_of. intros H.
  destruct (Np.stack2 _ _) as [stacked|] eqn:Es; [|discriminate].
  cbn [rbind] in H. injection H as <-.
  apply stack2_inv in Es. destruct Es as [Hlen ->].
  unfold Np.astype_float, Np.zeros in *.
  rewrite length_map, repeat_length in Hlen. subst n_segments.
  rewrite length_map.
  set (n := length f_init_array). set (p := n_proposals).
  repeat split.
  - unfold Np.transpose, Np.repeat_last, Np.get. cbn [nrows ncols cells].
    rewrite nth_flat_map_pieces with (c := 2%nat) (d0 := 0%nat);
      [| intros; now rewrite length_map, length_seq | now rewrite length_seq | lia].
    rewrite seq_nth by assumption. cbn [seq map nth Nat.add Nat.mul].
    rewrite nth_repeat_each by (rewrite length_app, length_map; fold n; lia).
    destruct (split_index _ _ _ H) as (_ & Hq & _).
    rewrite app_nth1 by (rewrite length_map; exact Hq).
    change 0%Q with (inject_Z 0). apply map_nth.
  - unfold Np.transpose, Np.repeat_last, Np.get. cbn [nrows ncols cells].
    rewrite nth_flat_map_pieces with (c := 2%nat) (d0 := 0%nat);
      [| intros; now rewrite length_map, length_seq | now rewrite length_seq | lia].
    rewrite seq_nth by assumption. cbn [seq map nth Nat.add Nat.mul].
    rewrite Nat.add_0_r.
    rewrite nth_repeat_each
      by (rewrite length_app, length_map, repeat_length; fold n; lia).
    destruct (split_index _ _ _ H) as (_ & Hq & _).
    replace ((n * p + k) / p)%nat with (n + k / p)%nat.
    + rewrite app_nth2 by (rewrite length_map; fold n; lia).
      rewrite length_map. fold n.
      replace (n + k / p - n)%nat with (k / p)%nat by lia.
      apply nth_repeat.
    + assert (p <> 0)%nat by (intros Hp; rewrite Hp in H; lia).
      rewrite (Nat.add_comm (n * p)), Nat.div_add by assumption. lia.
Qed.

Lemma coordinates_of_inv (map_array loc coords : matrix Q) (T : Z) (r : nat) :
  nrows map_array = r -> ncols map_array = 2%nat ->
  nrows loc = r -> ncols loc = 2%nat -> length (cells loc) = (r * 2)%nat ->
  coordinates_of map_array loc T = Ok coords ->
  nrows coords = r /\ ncols coords = 2%nat /\
  forall k j, (k < r)%nat -> (j < 2)%nat ->
    Np.get 0%Q coords k j
    = (Np.get 0%Q map_array k j + Np.clip1 0 1 (Np.get 0%Q loc k j) * inject_Z T)%Q.
Proof.
  intros Hra Hca Hrl Hcl Hlen. unfold coordinates_of, Np.add.
  cbn [nrows ncols Np.scale Np.clip Np.map_cells].
  rewrite Hra, Hca, Hrl, Hcl. unfold Np.broadcast_dim. rewrite !Nat.eqb_refl.
  intros H. injection H as <-. cbn [nrows ncols]. repeat split.
  intros k j Hk Hj.
  rewrite get_rows by (try assumption; intros; reflexivity).
  assert (Ek : (if (r =? 1)%nat then 0%nat else k) = k).
  { destruct (Nat.eqb_spec r 1); lia. }
  assert (Hget : forall j', (j' < 2)%nat ->
             Np.bget (Np.scale (inject_Z T) (Np.clip 0 1 loc)) k j'
             = (Np.clip1 0 1 (Np.get 0 loc k j') * inject_Z T)%Q).
  { intros j' Hj'. unfold Np.bget, Np.get, Np.scale, Np.clip, Np.map_cells.
    cbn [nrows ncols cells]. rewrite Hrl, Hcl, Ek. cbn [Nat.eqb].
    set (f := fun x : Q => (x * inject_Z T)%Q).
    rewrite nth_indep with (d' := f (Np.clip1 0 1 0)) by (rewrite !length_map; lia).
    now rewrite (map_nth f), (map_nth (Np.clip1 0 1)). }
  assert (Hmap : forall j', Np.bget map_array k j' = Np.get 0%Q map_array k j').
  { intros j'. unfold Np.bget. now rewrite Hra, Hca, Ek. }
  destruct j as [|[|j]]; [| |lia]; cbn [nth]; now rewrite Hget, Hmap by lia.
Qed.

Lemma clip1_unit (x : Q) :
  (0 <= Np.clip1 0 1 x <= 1)%Q /\
  (x < 0 -> Np.clip1 0 1 x = 0)%Q /\
  (1 < x -> Np.clip1 0 1 x = 1)%Q /\
  (0 <= x <= 1 -> Np.clip1 0 1 x = x)%Q.
Proof.
  unfold Np.clip1.
  destruct (Qlt_le_dec x 0) as [H0|H0]; [|destruct (Qlt_le_dec 1 x) as [H1|H1]].
  - repeat split; try easy.
    + intros H1. exfalso. apply (Qlt_irrefl x).
      apply Qlt_trans with 0%Q; [assumption|]. now apply Qlt_trans with 1%Q.
    + intros [Hx _]. exfalso. now apply (Qlt_not_le x 0).
  - repeat split; try easy.
    + intros Hx. exfalso. now apply (Qlt_not_le x 0).
    + intros [_ Hx]. exfalso. now apply (Qlt_not_le 1 x).
  - repeat split; try assumption.
    + intros Hx. exfalso. now apply (Qlt_not_le x 0).
    + intros Hx. exfalso. now apply (Qlt_not_le 1 x).
Qed.

Section Retrieval.

Variable E : externals.

Lemma segment_format_inv (X F : matrix Q) :
  segment_format E X = Ok F ->
  ncols X = 2%nat /\ nrows F = nrows X /\ ncols F = 2%nat /\
  length (cells F) = (nrows X * 2)%nat /\
  forall k, (k < nrows X)%nat ->
    (Np.get 0%Q F k 0, Np.get 0%Q F k 1)
    = c2b E (Np.get 0%Q X k 0, Np.get 0%Q X k 1).
Proof.
  unfold segment_format. destruct (Nat.eqb_spec (ncols X) 2); [|discriminate].
  intros H. injection H as <-. cbn [nrows ncols cells].
  assert (Hlen : forall i,
             length (let (a, b) := c2b E (Np.get 0%Q X i 0, Np.get 0%Q X i 1) in [a; b])
             = 2%nat) by (intros i; now destruct (c2b E _)).
  repeat split; try assumption.
  - rewrite length_flat_map_pieces with (c := 2%nat) by (intros; apply Hlen).
    now rewrite length_seq.
  - intros k Hk. rewrite !get_rows by (try apply Hlen; lia).
    now destruct (c2b E _).
Qed.

Lemma eval_head_shape (l : layer) (input_data : ndarray Q) :
  output_shaped E l ->
  length (cells (eval_head E l input_data))
  = (hd 0%nat (shape input_data) * output_units l)%nat.
Proof.
  intros Hl. unfold eval_head. cbn [cells].
  rewrite length_flat_map_pieces with (c := output_units l) by (intros; apply Hl).
  unfold samples_of. now rewrite length_chunks.
Qed.

Lemma eval_head_nth (l : layer) (input_data : ndarray Q) (i j : nat) :
  output_shaped E l ->
  (i < hd 0%nat (shape input_data))%nat -> (j < output_units l)%nat ->
  nth (i * output_units l + j) (cells (eval_head E l input_data)) 0%Q
  = nth j (window_output E l input_data i) 0%Q.
Proof.
  intros Hl Hi Hj. unfold eval_head, window_output. cbn [cells].
  apply nth_flat_map_pieces; [intros; apply Hl | | assumption].
  unfold samples_of. now rewrite length_chunks.
Qed.

Lemma forward_pass_inv (network : layer * layer) (input_data : ndarray Q)
    (loc score : matrix Q) :
  forward_pass E network input_data = Ok (loc, score) ->
  score = eval_head E (snd network) input_data /\
  Np.reshape_pairs (eval_head E (fst network) input_data) = Ok loc.
Proof.
  unfold forward_pass. destruct (Np.reshape_pairs _) as [loc'|]; [|discriminate].
  cbn [rbind]. intros H. injection H as <- <-. auto.
Qed.

(** The two arrays of the forward pass, entry by entry: row [k] of [loc]
    and entry [k] of the flattened scores both come from window
    [k / n_proposals]. *)
Lemma forward_pass_entries (network : layer * layer) (input_data : ndarray Q)
    (loc score : matrix Q) :
  heads_shaped E network ->
  forward_pass E network input_data = Ok (loc, score) ->
  let n := output_units (snd network) in
  let b := hd 0%nat (shape input_data) in
  nrows score = b /\ ncols score = n /\ length (cells score) = (b * n)%nat /\
  nrows loc = (b * n)%nat /\ ncols loc = 2%nat /\
  length (cells loc) = (b * n * 2)%nat /\
  forall k, (k < b * n)%nat ->
    nth k (Np.flatten score) 0%Q
    = nth (k mod n) (window_output E (snd network) input_data (k / n)) 0%Q /\
    forall j, (j < 2)%nat ->
      Np.get 0%Q loc k j
      = nth (2 * (k mod n) + j) (window_output E (fst network) input_data (k / n)) 0%Q.
Proof.
  intros (Hloc & Hconf & Hunits) H n b.
  apply forward_pass_inv in H. destruct H as [-> H].
  unfold Np.reshape_pairs in H.
  destruct (_ =? 0)%nat; [|discriminate]. injection H as <-.
  cbn [nrows ncols cells eval_head]. fold n b. rewrite Hunits. fold n.
  assert (Hdiv : (b * (2 * n) / 2 = b * n)%nat).
  { replace (b * (2 * n))%nat with (b * n * 2)%nat by lia. now apply Nat.div_mul. }
  change (fst (Nat.divmod (b * (2 * n)) 1 0 1)) with (b * (2 * n) / 2)%nat.
  rewrite Hdiv.
  pose proof (eval_head_shape (snd network) input_data Hconf) as Ls.
  pose proof (eval_head_shape (fst network) input_data Hloc) as Ll.
  unfold eval_head in Ls, Ll. cbn [cells] in Ls, Ll.
  fold b n in Ls. fold b in Ll. rewrite Hunits in Ll. fold n in Ll.
  repeat split; try assumption; try lia.
  - destruct (split_index k b n H) as (Ek & Hq & Hr).
    unfold Np.flatten. cbn [cells]. rewrite Ek at 1.
    apply (eval_head_nth (snd network) input_data (k / n) (k mod n) Hconf Hq Hr).
  - intros j Hj. destruct (split_index k b n H) as (Ek & Hq & Hr).
    unfold Np.get. cbn [ncols cells].
    replace (k * 2 + j)%nat
      with (k / n * output_units (fst network) + (2 * (k mod n) + j))%nat
      by (rewrite Hunits; fold n; nia).
    apply (eval_head_nth (fst network) input_data (k / n) (2 * (k mod n) + j) Hloc Hq).
    rewrite Hunits. fold n. lia.
Qed.

End Retrieval.

(* ================================================================== *)
(** ** The stages of [retrieve_proposals] *)

Section Stages.

Variable E : externals.

Lemma generate_proposals_inv (f_init_array : list Z) (network : layer * layer)
    (feat_stack : ndarray Q) (T : Z) (proposal : matrix Z) (score' : list Q) :
  generate_proposals E f_init_array network feat_stack T = Ok (proposal, score') ->
  exists loc score map_array coords formatted,
    forward_pass E network feat_stack = Ok (loc, score) /\
    map_array_of f_init_array (nrows score) (ncols score) = Ok map_array /\
    coordinates_of map_array loc T = Ok coords /\
    segment_format E coords = Ok formatted /\
    proposal = Np.astype_int formatted /\
    score' = Np.flatten score.
Proof.
  unfold generate_proposals.
  destruct (forward_pass E network feat_stack) as [[loc score]|] eqn:Hfwd;
    [|discriminate].
  cbn [rbind].
  destruct (map_array_of _ _ _) as [map_array|] eqn:Hmap; [|discriminate].
  cbn [rbind].
  destruct (coordinates_of _ _ _) as [coords|] eqn:Hco; [|discriminate].
  cbn [rbind].
  destruct (segment_format E coords) as [formatted|] eqn:Hfmt; [|discriminate].
  cbn [rbind].
  intros H. injection H as <- <-.
  exists loc, score, map_array, coords, formatted. repeat split; assumption.
Qed.

Lemma scan_video_ok (fobj : Feature) (video_name : string) (l_size T stride : Z)
    (model_prm : option string) (w : world) (f_init_array : list Z)
    (feat_stack0 feat_stack : ndarray Q) :
  f_init_array_of l_size T stride = Ok f_init_array ->
  feature_batch E fobj video_name f_init_array T = Ok feat_stack0 ->
  reshape_for_model model_prm feat_stack0 = Ok feat_stack ->
  scan_video E fobj video_name l_size T stride model_prm w
  = (Ok (f_init_array, feat_stack),
     World false (trace w ++ [EvOpen; EvRead video_name f_init_array T; EvClose])).
Proof.
  intros Hf Hb Hr.
  unfold scan_video, bind, lift, ret, open_instance, close_instance,
    read_feat_batch_from_video.
  rewrite Hf. cbn [handle_open trace]. rewrite Hb, Hr.
  now rewrite <- !app_assoc.
Qed.

(** A scan that fails stops where the error is raised: the store was
    opened and is not closed. *)
Lemma scan_video_raises (fobj : Feature) (video_name : string) (l_size T stride : Z)
    (model_prm : option string) (w w' : world) (e : exn) :
  scan_video E fobj video_name l_size T stride model_prm w = (Raise e, w') ->
  handle_open w' = true.
Proof.
  unfold scan_video, bind, lift, ret, open_instance, close_instance,
    read_feat_batch_from_video.
  destruct (f_init_array_of l_size T stride) as [f|]; cbn [handle_open trace].
  - destruct (feature_batch E fobj video_name f T) as [feat0|].
    + destruct (reshape_for_model model_prm feat0); [discriminate|].
      intros H. now injection H as _ <-.
    + intros H. now injection H as _ <-.
  - intros H. now injection H as _ <-.
Qed.

Lemma scan_video_inv (fobj : Feature) (video_name : string) (l_size T stride : Z)
    (model_prm : option string) (w w' : world) (f_init_array : list Z)
    (feat_stack : ndarray Q) :
  scan_video E fobj video_name l_size T stride model_prm w
  = (Ok (f_init_array, feat_stack), w') ->
  f_init_array_of l_size T stride = Ok f_init_array /\
  (exists feat_stack0,
      feature_batch E fobj video_name f_init_array T = Ok feat_stack0 /\
      reshape_for_model model_prm feat_stack0 = Ok feat_stack) /\
  w' = World false (trace w ++ [EvOpen; EvRead video_name f_init_array T; EvClose]).
Proof.
  intros H.
  destruct (f_init_array_of l_size T stride) as [f|e] eqn:Hf.
  2:{ unfold scan_video, bind, lift, open_instance in H. rewrite Hf in H.
      discriminate. }
  destruct (feature_batch E fobj video_name f T) as [feat0|e] eqn:Hb.
  2:{ unfold scan_video, bind, lift, open_instance, read_feat_batch_from_video in H.
      rewrite Hf in H. cbn [handle_open trace] in H. rewrite Hb in H.
      discriminate. }
  destruct (reshape_for_model model_prm feat0) as [feat|e] eqn:Hr.
  2:{ unfold scan_video, bind, lift, open_instance, read_feat_batch_from_video in H.
      rewrite Hf in H. cbn [handle_open trace] in H. rewrite Hb, Hr in H.
      discriminate. }
  rewrite (scan_video_ok fobj video_name l_size T stride model_prm w f feat0 feat
             Hf Hb Hr) in H.
  injection H as <- <- <-. split; [reflexivity|]. split; [|reflexivity].
  exists feat0. auto.
Qed.

Lemma retrieve_proposals_inv (video_name : string) (l_size : Z)
    (network : layer * layer) (T stride c3d_size c3d_stride : Z)
    (pool_type : string) (hdf5_dataset : option string)
    (model_prm : option string)
    (w w' : world) (proposal : matrix Z) (score : list Q) :
  retrieve_proposals E video_name l_size network T stride c3d_size c3d_stride
                     pool_type hdf5_dataset model_prm w
  = (Ok (proposal, score), w') ->
  exists f_init_array feat_stack,
    scan_video E (Build_Feature hdf5_dataset c3d_size c3d_stride pool_type)
               video_name l_size T stride model_prm w
    = (Ok (f_init_array, feat_stack), w') /\
    generate_proposals E f_init_array network feat_stack T = Ok (proposal, score).
Proof.
  unfold retrieve_proposals, bind, lift.
  destruct (scan_video E _ video_name l_size T stride model_prm w)
    as [[[f feat]|e] w1]; [|discriminate].
  intros H. injection H as H <-. exists f, feat. auto.
Qed.

(** What a successful run computed, stage by stage, with the shapes the
    stages have when the heads are shaped as [build_model] shapes them. *)
Lemma generate_proposals_shapes (f_init_array : list Z) (network : layer * layer)
    (feat_stack : ndarray Q) (T : Z) (proposal : matrix Z) (score' : list Q) :
  heads_shaped E network ->
  generate_proposals E f_init_array network feat_stack T = Ok (proposal, score') ->
  let n := output_units (snd network) in
  let N := (length f_init_array * n)%nat in
  exists loc score map_array coords formatted,
    (forward_pass E network feat_stack = Ok (loc, score) /\
     map_array_of f_init_array (nrows score) (ncols score) = Ok map_array /\
     coordinates_of map_array loc T = Ok coords /\
     segment_format E coords = Ok formatted /\
     proposal = Np.astype_int formatted /\
     score' = Np.flatten score) /\
    (hd 0%nat (shape feat_stack) = length f_init_array /\
     nrows score = length f_init_array /\ ncols score = n /\
     length (cells score) = N /\
     nrows loc = N /\ ncols loc = 2%nat /\
     nrows map_array = N /\ ncols map_array = 2%nat /\
     nrows coords = N /\ ncols coords = 2%nat /\
     nrows formatted = N /\ ncols formatted = 2%nat /\
     length (cells formatted) = (N * 2)%nat).
Proof.
  intros Hheads H n N.
  destruct (generate_proposals_inv _ _ _ _ _ _ H)
    as (loc & score & map_array & coords & formatted & Hfwd & Hmap & Hco & Hfmt & Hp & Hs).
  exists loc, score, map_array, coords, formatted.
  split; [repeat split; assumption|].
  subst n N.
  destruct (forward_pass_entries E network feat_stack loc score Hheads Hfwd)
    as (Hrs & Hcs & Hls & Hrl & Hcl & Hll & _).
  destruct (map_array_of_inv _ _ _ _ Hmap) as (Hlen & Hrm & Hcm & _).
  assert (Hb : hd 0%nat (shape feat_stack) = length f_init_array) by congruence.
  rewrite Hb in *. rewrite Hcs, Hrs in Hrm.
  destruct (coordinates_of_inv map_array loc coords T _ Hrm Hcm Hrl Hcl Hll Hco)
    as (Hrc & Hcc & _).
  destruct (segment_format_inv E coords formatted Hfmt) as (_ & Hrf & Hcf & Hlf & _).
  rewrite Hrc in Hrf, Hlf.
  repeat split; assumption.
Qed.

End Stages.

Lemma astype_int_get (F : matrix Q) (k j : nat) :
  (k * ncols F + j < length (cells F))%nat ->
  Np.get 0 (Np.astype_int F) k j = Np.trunc (Np.get 0%Q F k j).
Proof.
  intros H. unfold Np.get, Np.astype_int, Np.map_cells. cbn [ncols cells].
  rewrite nth_indep with (d' := Np.trunc 0%Q) by now rewrite length_map.
  apply map_nth.
Qed.

(** Unpacks a successful [generate_proposals] into its stages, their
    shapes and the entry-wise facts of each stage. *)
Ltac unpack_stages E Hheads Hgen :=
  let loc := fresh "loc" in
  let score2d := fresh "score2d" in
  let map_array := fresh "map_array" in
  let coords := fresh "coords" in
  let formatted := fresh "formatted" in
  destruct (generate_proposals_shapes E _ _ _ _ _ _ Hheads Hgen)
    as (loc & score2d & map_array & coords & formatted &
        (Hfwd & Hmap & Hco & Hfmt & Hprop & Hscore) &
        (Hbatch & Hrs & Hcs & Hls & Hrl & Hcl & Hrm & Hcm & Hrc & Hcc &
         Hrf & Hcf & Hlf));
  pose proof (forward_pass_entries E _ _ _ _ Hheads Hfwd) as Hentries;
  cbv zeta in Hentries;
  destruct Hentries as (_ & _ & _ & _ & _ & Hll & Hentries);
  rewrite Hbatch in Hll, Hentries;
  pose proof (map_array_of_inv _ _ _ _ Hmap) as (_ & _ & _ & Hstart);
  rewrite Hrs, Hcs in Hstart;
  pose proof (coordinates_of_inv _ _ _ _ _ Hrm Hcm Hrl Hcl Hll Hco)
    as (_ & _ & Hsum);
  pose proof (segment_format_inv E _ _ Hfmt) as (_ & _ & _ & _ & Hrow);
  rewrite Hrc in Hrow.

Section Proposals.

Variables (E : externals) (network : layer * layer).
Hypothesis Hheads : heads_shaped E network.

(** Entry [k] of the returned scores and row [k] of the returned proposals,
    in terms of the window starts and the outputs of the two heads. *)
Lemma generate_proposals_rows (f_init_array : list Z) (feat_stack : ndarray Q)
    (T : Z) (proposal : matrix Z) (score : list Q) :
  generate_proposals E f_init_array network feat_stack T = Ok (proposal, score) ->
  let n := output_units (snd network) in
  forall k, (k < length f_init_array * n)%nat ->
    nth k score 0%Q
    = nth (k mod n) (window_output E (snd network) feat_stack (k / n)) 0%Q /\
    row2 0 proposal k
    = proposal_of E (nth (k / n) f_init_array 0) T
        (nth (2 * (k mod n)) (window_output E (fst network) feat_stack (k / n)) 0%Q)
        (nth (2 * (k mod n) + 1)
             (window_output E (fst network) feat_stack (k / n)) 0%Q).
Proof.
  intros Hgen n k Hk. subst n.
  unpack_stages E Hheads Hgen.
  destruct (Hentries k Hk) as [Hsc Hloc].
  split.
  - now rewrite Hscore.
  - unfold row2, proposal_of. rewrite Hprop.
    rewrite !astype_int_get by (rewrite Hcf, Hlf; lia).
    pose proof (Hrow k Hk) as Hr.
    destruct (Hstart k Hk) as [Hs0 Hs1].
    rewrite (Hsum k 0%nat Hk ltac:(lia)), (Hsum k 1%nat Hk ltac:(lia)) in Hr.
    rewrite Hs0, Hs1 in Hr.
    rewrite (Hloc 0%nat ltac:(lia)), (Hloc 1%nat ltac:(lia)), Nat.add_0_r in Hr.
    rewrite <- Hr. reflexivity.
Qed.

End Proposals.

(* ================================================================== *)
(** ** Proposal retrieval *)

Section RetrieveProposals.

Variables (E : externals) (video_name : string) (l_size : Z)
          (network : layer * layer) (T stride c3d_size c3d_stride : Z)
          (pool_type : string) (hdf5_dataset : option string)
          (model_prm : option string).

Let fobj : Feature := Build_Feature hdf5_dataset c3d_size c3d_stride pool_type.

Let run : M (matrix Z * list Q) :=
  retrieve_proposals E video_name l_size network T stride c3d_size c3d_stride
                     pool_type hdf5_dataset model_prm.

(** C8.  When [retrieve_proposals] returns, the proposals are
    [n_segments * n_proposals] rows of two entries and the flat scores are
    as many, where [n_segments] counts the window offsets and [n_proposals]
    the units of the confidence head; entry [k] of the scores and row [k]
    of the proposals are those of window [k / n_proposals] and output slot
    [k mod n_proposals]. *)
Theorem retrieve_proposals_lengths (w w' : world) (proposal : matrix Z)
    (score : list Q) :
  heads_shaped E network ->
  run w = (Ok (proposal, score), w') ->
  exists f_init_array feat_stack,
    scan_video E fobj video_name l_size T stride model_prm w
    = (Ok (f_init_array, feat_stack), w') /\
    let n_segments := length f_init_array in
    let n_proposals := output_units (snd network) in
    nrows proposal = (n_segments * n_proposals)%nat /\
    ncols proposal = 2%nat /\
    length (cells proposal) = (n_segments * n_proposals * 2)%nat /\
    length score = (n_segments * n_proposals)%nat /\
    forall k, (k < n_segments * n_proposals)%nat ->
      let i := (k / n_proposals)%nat in
      let j := (k mod n_proposals)%nat in
      nth k score 0%Q = nth j (window_output E (snd network) feat_stack i) 0%Q /\
      row2 0 proposal k
      = proposal_of E (nth i f_init_array 0) T
          (nth (2 * j) (window_output E (fst network) feat_stack i) 0%Q)
          (nth (2 * j + 1) (window_output E (fst network) feat_stack i) 0%Q).
Proof.
  intros Hheads Hrun.
  destruct (retrieve_proposals_inv E _ _ _ _ _ _ _ _ _ _ _ _ _ _ Hrun)
    as (f_init_array & feat_stack & Hscan & Hgen).
  exists f_init_array, feat_stack. split; [exact Hscan|].
  cbv zeta.
  pose proof (generate_proposals_rows E network Hheads _ _ _ _ _ Hgen) as Hrows.
  unpack_stages E Hheads Hgen.
  split; [rewrite Hprop; exact Hrf|].
  split; [rewrite Hprop; exact Hcf|].
  split.
  { rewrite Hprop. unfold Np.astype_int, Np.map_cells. cbn [cells].
    now rewrite length_map. }
  split; [rewrite Hscore; exact Hls|].
  exact Hrows.
Qed.

(** C10.  When [retrieve_proposals] returns, entry [k] of the flat scores
    is entry [(k / n_proposals, k mod n_proposals)] of the score array of
    the forward pass, row [k] of [map_array] starts with the window start
    [f_init_array[k / n_proposals]], and row [k] of the proposals is made
    from row [k] of [map_array] and row [k] of [loc]. *)
Theorem scores_aligned_with_proposals (w w' : world) (proposal : matrix Z)
    (score : list Q) :
  heads_shaped E network ->
  run w = (Ok (proposal, score), w') ->
  exists f_init_array feat_stack loc score2d map_array,
    scan_video E fobj video_name l_size T stride model_prm w
    = (Ok (f_init_array, feat_stack), w') /\
    forward_pass E network feat_stack = Ok (loc, score2d) /\
    map_array_of f_init_array (nrows score2d) (ncols score2d) = Ok map_array /\
    score = Np.flatten score2d /\
    nrows score2d = length f_init_array /\
    let n_proposals := ncols score2d in
    forall k, (k < nrows score2d * n_proposals)%nat ->
      nth k score 0%Q = Np.get 0%Q score2d (k / n_proposals) (k mod n_proposals) /\
      Np.get 0%Q map_array k 0
      = inject_Z (nth (k / n_proposals) f_init_array 0) /\
      row2 0 proposal k
      = (let (a, b) :=
           c2b E (Np.get 0%Q map_array k 0
                  + Np.clip1 0 1 (Np.get 0%Q loc k 0) * inject_Z T,
                  Np.get 0%Q map_array k 1
                  + Np.clip1 0 1 (Np.get 0%Q loc k 1) * inject_Z T)%Q in
         (Np.trunc a, Np.trunc b)).
Proof.
  intros Hheads Hrun.
  destruct (retrieve_proposals_inv E _ _ _ _ _ _ _ _ _ _ _ _ _ _ Hrun)
    as (f_init_array & feat_stack & Hscan & Hgen).
  unpack_stages E Hheads Hgen.
  exists f_init_array, feat_stack, loc, score2d, map_array.
  repeat (split; [assumption|]).
  cbv zeta. rewrite Hrs, Hcs. intros k Hk.
  destruct (split_index k _ _ Hk) as (Ek & Hq & Hr).
  repeat split.
  - rewrite Hscore. unfold Np.flatten, Np.get. rewrite Hcs.
    now rewrite <- Ek.
  - apply Hstart. assumption.
  - unfold row2. rewrite Hprop.
    rewrite !astype_int_get by (rewrite Hcf, Hlf; lia).
    rewrite <- (Hsum k 0%nat Hk ltac:(lia)), <- (Hsum k 1%nat Hk ltac:(lia)).
    rewrite <- (Hrow k Hk). reflexivity.
Qed.

(** C4.  When [retrieve_proposals] returns, every entry of the array handed
    to [segment_format] is an entry of [map_array] plus [c * T], where [c]
    is the raw localization value clipped into [[0, 1]]: 0 for a raw value
    below 0, 1 for one above 1. *)
Theorem localization_clipped_before_scaling (w w' : world) (proposal : matrix Z)
    (score : list Q) :
  heads_shaped E network ->
  run w = (Ok (proposal, score), w') ->
  exists f_init_array feat_stack loc score2d map_array coords formatted,
    scan_video E fobj video_name l_size T stride model_prm w
    = (Ok (f_init_array, feat_stack), w') /\
    forward_pass E network feat_stack = Ok (loc, score2d) /\
    map_array_of f_init_array (nrows score2d) (ncols score2d) = Ok map_array /\
    coordinates_of map_array loc T = Ok coords /\
    segment_format E coords = Ok formatted /\
    proposal = Np.astype_int formatted /\
    nrows loc = nrows coords /\
    forall k j, (k < nrows coords)%nat -> (j < 2)%nat ->
      let raw := Np.get 0%Q loc k j in
      let c := Np.clip1 0 1 raw in
      (0 <= c <= 1)%Q /\
      (raw < 0 -> c = 0)%Q /\
      (1 < raw -> c = 1)%Q /\
      (0 <= raw <= 1 -> c = raw)%Q /\
      Np.get 0%Q coords k j = (Np.get 0%Q map_array k j + c * inject_Z T)%Q.
Proof.
  intros Hheads Hrun.
  destruct (retrieve_proposals_inv E _ _ _ _ _ _ _ _ _ _ _ _ _ _ Hrun)
    as (f_init_array & feat_stack & Hscan & Hgen).
  unpack_stages E Hheads Hgen.
  exists f_init_array, feat_stack, loc, score2d, map_array, coords, formatted.
  repeat (split; [assumption|]).
  split; [congruence|].
  rewrite Hrc. intros k j Hk Hj. cbv zeta.
  destruct (clip1_unit (Np.get 0%Q loc k j)) as (Hin & Hlo & Hhi & Hid).
  repeat split; try assumption; try apply Hin.
  apply Hsum; assumption.
Qed.

(** What the reshape of lines 139-144 keeps: the batch size and the
    entries. *)
Lemma reshape_for_model_batch (n D : nat) (d : list Q) (feat_stack : ndarray Q) :
  reshape_for_model model_prm (NdArray [n; D] d) = Ok feat_stack ->
  hd 0%nat (shape feat_stack) = n /\ data feat_stack = d.
Proof.
  unfold reshape_for_model.
  destruct model_prm as [model_prm'|]; [|discriminate]. cbn [attribute_of rbind].
  destruct (PyStr.startswith "lstm:" model_prm').
  2:{ intros H. injection H as <-. auto. }
  destruct (PyStr.index _ 1) as [tail|]; [|discriminate]. cbn [rbind].
  destruct (PyStr.split "," tail) as [|n_outputs [|seq_length [|width [|depth [|]]]]];
    try discriminate.
  cbn [shape PyStr.index nth_error rbind].
  destruct (py_int seq_length) as [d1|]; [|discriminate]. cbn [rbind].
  destruct (d1 =? 0); [discriminate|]. cbn [rbind].
  set (d2 := Z.of_nat D / d1).
  unfold Np.reshape. cbn [filter shape data existsb negb map].
  assert (Hn : (Z.of_nat n =? -1) = false) by (apply Z.eqb_neq; lia).
  rewrite Hn. cbn [negb].
  destruct (d1 =? -1), (d2 =? -1); cbn [negb existsb filter map];
    repeat match goal with
           | |- context [if ?b then _ else _] => destruct b
           end;
    try discriminate;
    intros H; injection H as <-; cbn [shape data hd map];
    rewrite ?Hn, ?Nat2Z.id; auto.
Qed.

(** C3.  For a video no longer than the window, scanned with a positive
    stride under a configuration whose reshape accepts an empty batch,
    there are no window offsets, and [retrieve_proposals] returns no
    proposals and no scores (and leaves the store closed). *)
Theorem short_video_has_no_proposals (w : world) :
  l_size <= T -> 0 < stride ->
  (exists feat_stack,
      reshape_for_model model_prm (NdArray [0%nat; feat_dim E fobj] []) = Ok feat_stack) ->
  f_init_array_of l_size T stride = Ok [] /\
  run w = (Ok (Matrix 0 2 [], []),
           World false (trace w ++ [EvOpen; EvRead video_name [] T; EvClose])).
Proof.
  intros HL Hs [feat_stack Hr].
  assert (Hf : f_init_array_of l_size T stride = Ok []).
  { unfold f_init_array_of, Np.arange.
    destruct (Z.eqb_spec stride 0); [lia|].
    assert (0 <= (0 - (l_size - T)) / stride) by (apply Z.div_pos; lia).
    replace (Z.to_nat (- ((0 - (l_size - T)) / stride))) with 0%nat by lia.
    reflexivity. }
  split; [exact Hf|].
  destruct (reshape_for_model_batch _ _ _ _ Hr) as [Hhd Hdata].
  unfold run, retrieve_proposals, bind. cbv zeta. fold fobj.
  rewrite (scan_video_ok E fobj video_name l_size T stride model_prm w []
             (NdArray [0%nat; feat_dim E fobj] []) feat_stack Hf eq_refl Hr).
  unfold lift, generate_proposals, forward_pass, eval_head, samples_of.
  rewrite Hhd. reflexivity.
Qed.

(** An error raised by the offsets, the read or the reshape ends the call
    with the store still open. *)
Lemma store_left_open_on_error (w w' : world) (e : exn) :
  scan_video E fobj video_name l_size T stride model_prm w = (Raise e, w') ->
  run w = (Raise e, w') /\ handle_open w' = true.
Proof.
  intros H. split.
  - unfold run, retrieve_proposals, bind. cbv zeta. fold fobj. now rewrite H.
  - exact (scan_video_raises E _ _ _ _ _ _ _ _ _ H).
Qed.

(** C9, amended.  When the offsets, the batched read and the reshape raise
    nothing, the store is opened, read once and closed, in this order, and
    it is closed in the state [retrieve_proposals] ends in, whatever the
    later stages do.  When one of the three raises, the call ends with that
    error and the store is left open. *)
Theorem store_closed_after_scan (w : world) :
  (forall f_init_array feat_stack0 feat_stack,
      f_init_array_of l_size T stride = Ok f_init_array ->
      feature_batch E fobj video_name f_init_array T = Ok feat_stack0 ->
      reshape_for_model model_prm feat_stack0 = Ok feat_stack ->
      exists r,
        run w = (r, World false
                      (trace w
                       ++ [EvOpen; EvRead video_name f_init_array T; EvClose]))) /\
  (forall e w',
      scan_video E fobj video_name l_size T stride model_prm w = (Raise e, w') ->
      run w = (Raise e, w') /\ handle_open w' = true).
Proof.
  split.
  - intros f_init_array feat_stack0 feat_stack Hf Hb Hr.
    unfold run, retrieve_proposals, bind. cbv zeta. fold fobj.
    rewrite (scan_video_ok E fobj video_name l_size T stride model_prm w
               f_init_array feat_stack0 feat_stack Hf Hb Hr).
    unfold lift. eexists. reflexivity.
  - intros e w'. apply store_left_open_on_error.
Qed.

(** A configuration that is not recurrent leaves the feature stack as it
    is. *)
Lemma reshape_for_model_other (prm : string) (feat_stack : ndarray Q) :
  PyStr.startswith "lstm:" prm = false ->
  reshape_for_model (Some prm) feat_stack = Ok feat_stack.
Proof.
  intros H. unfold reshape_for_model. cbn [attribute_of rbind]. now rewrite H.
Qed.

Lemma collect_length {A : Type} (rs : list (result A)) (l : list A) :
  collect rs = Ok l -> length l = length rs.
Proof.
  revert l. induction rs as [|r rs IH]; intros l H; cbn [collect] in H.
  - now injection H as <-.
  - destruct r as [a|]; [|discriminate]. cbn [rbind] in H.
    destruct (collect rs) as [l'|]; [|discriminate]. cbn [rbind] in H.
    injection H as <-. cbn [length]. f_equal. now apply IH.
Qed.

(** The batch has one row per offset. *)
Lemma feature_batch_shape (f_init_array : list Z) (feat_stack0 : ndarray Q) :
  feature_batch E fobj video_name f_init_array T = Ok feat_stack0 ->
  exists d, feat_stack0 = NdArray [length f_init_array; feat_dim E fobj] d.
Proof.
  unfold feature_batch.
  destruct (collect _) as [rows|] eqn:Hc; [|discriminate]. cbn [rbind].
  destruct (forallb _ rows); [|discriminate].
  intros H. injection H as <-.
  apply collect_length in Hc. rewrite length_map in Hc. rewrite Hc.
  eexists. reflexivity.
Qed.

(** With heads of [2n] and [n] units the stages after the scan raise
    nothing when the batch has one sample per offset. *)
Lemma generate_proposals_returns (f_init_array : list Z) (feat_stack : ndarray Q) :
  heads_shaped E network ->
  hd 0%nat (shape feat_stack) = length f_init_array ->
  exists proposal score,
    generate_proposals E f_init_array network feat_stack T = Ok (proposal, score).
Proof.
  intros Hheads Hb.
  pose proof Hheads as (Hloc & Hconf & Hunits).
  unfold generate_proposals.
  destruct (forward_pass E network feat_stack) as [[loc score]|e] eqn:Hfwd.
  2:{ exfalso. unfold forward_pass, Np.reshape_pairs in Hfwd.
      cbn [eval_head nrows ncols] in Hfwd. rewrite Hunits in Hfwd.
      replace (hd 0%nat (shape feat_stack) * (2 * output_units (snd network)))%nat
        with (hd 0%nat (shape feat_stack) * output_units (snd network) * 2)%nat
        in Hfwd by lia.
      rewrite Nat.Div0.mod_mul in Hfwd. discriminate. }
  cbn [rbind].
  destruct (forward_pass_entries E network feat_stack loc score Hheads Hfwd)
    as (Hrs & Hcs & Hls & Hrl & Hcl & Hll & _).
  rewrite Hb in *.
  destruct (map_array_of _ _ _) as [map_array|e] eqn:Hmap.
  2:{ exfalso. unfold map_array_of, Np.stack2, Np.astype_float, Np.zeros in Hmap.
      rewrite length_map, repeat_length, Hrs, Nat.eqb_refl in Hmap. discriminate. }
  cbn [rbind].
  destruct (map_array_of_inv _ _ _ _ Hmap) as (_ & Hrm & Hcm & _).
  rewrite Hrs, Hcs in Hrm.
  destruct (coordinates_of map_array loc T) as [coords|e] eqn:Hco.
  2:{ exfalso. unfold coordinates_of, Np.add, Np.broadcast_dim in Hco.
      cbn [Np.scale Np.clip Np.map_cells nrows ncols] in Hco.
      rewrite Hrm, Hrl, Hcm, Hcl, !Nat.eqb_refl in Hco. discriminate. }
  cbn [rbind].
  destruct (coordinates_of_inv map_array loc coords T _ Hrm Hcm Hrl Hcl Hll Hco)
    as (_ & Hcc & _).
  unfold segment_format. rewrite Hcc. cbn [Nat.eqb rbind].
  eexists _, _. reflexivity.
Qed.

(** [retrieve_proposals] returns whenever the offsets, the read and the
    reshape raise nothing and the heads have [2n] and [n] units. *)
Lemma retrieve_proposals_returns (w : world) (f_init_array : list Z)
    (feat_stack0 feat_stack : ndarray Q) :
  heads_shaped E network ->
  f_init_array_of l_size T stride = Ok f_init_array ->
  feature_batch E fobj video_name f_init_array T = Ok feat_stack0 ->
  reshape_for_model model_prm feat_stack0 = Ok feat_stack ->
  exists proposal score,
    run w = (Ok (proposal, score),
             World false
                   (trace w ++ [EvOpen; EvRead video_name f_init_array T; EvClose])).
Proof.
  intros Hheads Hf Hbatch Hr.
  destruct (feature_batch_shape _ _ Hbatch) as [d ->].
  destruct (reshape_for_model_batch _ _ _ _ Hr) as [Hhd _].
  destruct (generate_proposals_returns f_init_array feat_stack Hheads Hhd)
    as (proposal & score & Hgen).
  exists proposal, score.
  unfold run, retrieve_proposals, bind. cbv zeta. fold fobj.
  rewrite (scan_video_ok E fobj video_name l_size T stride model_prm w
             f_init_array _ feat_stack Hf Hbatch Hr).
  unfold lift. now rewrite Hgen.
Qed.

End RetrieveProposals.

(* ================================================================== *)
(** ** The theorems at concrete runs *)

Lemma demo_heads_shaped : heads_shaped demo_externals demo_network.
Proof.
  repeat split; intros sh x; cbn; now rewrite length_map, length_seq.
Qed.

Lemma demo_run_result : demo_run = (Ok (demo_proposal, demo_score), demo_world).
Proof. vm_compute. reflexivity. Qed.

(** [retrieve_proposals_lengths] on a video of 512 frames scanned with
    stride 100 (three windows, two proposals each). *)
Lemma retrieve_proposals_lengths_witness :
  exists f_init_array feat_stack,
    scan_video demo_externals (Build_Feature None 16 8 "mean") "v" 512 256 100
               (Some "mlp:2,1,4,0.0,0.0") world0
    = (Ok (f_init_array, feat_stack), demo_world) /\
    let n_segments := length f_init_array in
    let n_proposals := output_units (snd demo_network) in
    nrows demo_proposal = (n_segments * n_proposals)%nat /\
    ncols demo_proposal = 2%nat /\
    length (cells demo_proposal) = (n_segments * n_proposals * 2)%nat /\
    length demo_score = (n_segments * n_proposals)%nat /\
    forall k, (k < n_segments * n_proposals)%nat ->
      let i := (k / n_proposals)%nat in
      let j := (k mod n_proposals)%nat in
      nth k demo_score 0%Q
      = nth j (window_output demo_externals (snd demo_network) feat_stack i) 0%Q /\
      row2 0 demo_proposal k
      = proposal_of demo_externals (nth i f_init_array 0) 256
          (nth (2 * j)
               (window_output demo_externals (fst demo_network) feat_stack i) 0%Q)
          (nth (2 * j + 1)
               (window_output demo_externals (fst demo_network) feat_stack i) 0%Q).
Proof.
  exact (retrieve_proposals_lengths demo_externals "v" 512 demo_network 256 100 16 8
           "mean" None (Some "mlp:2,1,4,0.0,0.0") world0 demo_world demo_proposal
           demo_score demo_heads_shaped demo_run_result).
Defined.

(** [scores_aligned_with_proposals] on the same run. *)
Lemma scores_aligned_with_proposals_witness :
  exists f_init_array feat_stack loc score2d map_array,
    scan_video demo_externals (Build_Feature None 16 8 "mean") "v" 512 256 100
               (Some "mlp:2,1,4,0.0,0.0") world0
    = (Ok (f_init_array, feat_stack), demo_world) /\
    forward_pass demo_externals demo_network feat_stack = Ok (loc, score2d) /\
    map_array_of f_init_array (nrows score2d) (ncols score2d) = Ok map_array /\
    demo_score = Np.flatten score2d /\
    nrows score2d = length f_init_array /\
    let n_proposals := ncols score2d in
    forall k, (k < nrows score2d * n_proposals)%nat ->
      nth k demo_score 0%Q = Np.get 0%Q score2d (k / n_proposals) (k mod n_proposals) /\
      Np.get 0%Q map_array k 0
      = inject_Z (nth (k / n_proposals) f_init_array 0) /\
      row2 0 demo_proposal k
      = (let (a, b) :=
           c2b demo_externals
               (Np.get 0%Q map_array k 0
                + Np.clip1 0 1 (Np.get 0%Q loc k 0) * inject_Z 256,
                Np.get 0%Q map_array k 1
                + Np.clip1 0 1 (Np.get 0%Q loc k 1) * inject_Z 256)%Q in
         (Np.trunc a, Np.trunc b)).
Proof.
  exact (scores_aligned_with_proposals demo_externals "v" 512 demo_network 256 100 16 8
           "mean" None (Some "mlp:2,1,4,0.0,0.0") world0 demo_world demo_proposal
           demo_score demo_heads_shaped demo_run_result).
Defined.

(** [localization_clipped_before_scaling] on the same run, whose raw
    localization values lie on both sides of the unit interval. *)
Lemma localization_clipped_before_scaling_witness :
  exists f_init_array feat_stack loc score2d map_array coords formatted,
    scan_video demo_externals (Build_Feature None 16 8 "mean") "v" 512 256 100
               (Some "mlp:2,1,4,0.0,0.0") world0
    = (Ok (f_init_array, feat_stack), demo_world) /\
    forward_pass demo_externals demo_network feat_stack = Ok (loc, score2d) /\
    map_array_of f_init_array (nrows score2d) (ncols score2d) = Ok map_array /\
    coordinates_of map_array loc 256 = Ok coords /\
    segment_format demo_externals coords = Ok formatted /\
    demo_proposal = Np.astype_int formatted /\
    nrows loc = nrows coords /\
    forall k j, (k < nrows coords)%nat -> (j < 2)%nat ->
      let raw := Np.get 0%Q loc k j in
      let c := Np.clip1 0 1 raw in
      (0 <= c <= 1)%Q /\
      (raw < 0 -> c = 0)%Q /\
      (1 < raw -> c = 1)%Q /\
      (0 <= raw <= 1 -> c = raw)%Q /\
      Np.get 0%Q coords k j = (Np.get 0%Q map_array k j + c * inject_Z 256)%Q.
Proof.
  exact (localization_clipped_before_scaling demo_externals "v" 512 demo_network 256 100 16 8
           "mean" None (Some "mlp:2,1,4,0.0,0.0") world0 demo_world demo_proposal
           demo_score demo_heads_shaped demo_run_result).
Defined.

(** [short_video_has_no_proposals] on a video exactly as long as the
    window, for a recurrent configuration. *)
Lemma short_video_has_no_proposals_witness :
  f_init_array_of 256 256 128 = Ok [] /\
  retrieve_proposals demo_externals "v" 256 demo_network 256 128 16 8 "mean"
                     None (Some "lstm:2,2,4,1") world0
  = (Ok (Matrix 0 2 [], []),
     World false (trace world0 ++ [EvOpen; EvRead "v" [] 256; EvClose])).
Proof.
  apply (short_video_has_no_proposals demo_externals "v" 256 demo_network 256 128
           16 8 "mean" None (Some "lstm:2,2,4,1") world0); [lia | lia |].
  eexists. vm_compute. reflexivity.
Defined.

(** The store is not closed on every path: when the read or the reshape
    raises, the call ends with the store open.  A store whose reads fail, and a recurrent configuration
    whose sequence length 3 does not divide the 4 features of a window. *)
Lemma store_not_closed_when_scan_raises :
  (exists e w',
      retrieve_proposals failing_externals "v" 512 demo_network 256 128 16 8
                         "mean" None (Some "mlp:2,1,4,0.0,0.0") world0
      = (Raise e, w') /\
      handle_open w' = true /\
      trace w' = [EvOpen; EvRead "v" [0; 128] 256]) /\
  (exists e w',
      retrieve_proposals demo_externals "v" 512 demo_network 256 128 16 8
                         "mean" None (Some "lstm:2,3,4,1") world0
      = (Raise e, w') /\
      handle_open w' = true /\
      trace w' = [EvOpen; EvRead "v" [0; 128] 256]).
Proof.
  split; eexists _, _; (split; [vm_compute; reflexivity|]); split; reflexivity.
Qed.

(** [store_closed_after_scan] on a run that scans two windows. *)
Lemma store_closed_after_scan_witness :
  exists r,
    retrieve_proposals demo_externals "v" 512 demo_network 256 128 16 8 "mean"
                       None (Some "mlp:2,1,4,0.0,0.0") world0
    = (r, World false (trace world0 ++ [EvOpen; EvRead "v" [0; 128] 256; EvClose])).
Proof.
  eapply (proj1 (store_closed_after_scan demo_externals "v" 512 demo_network 256
                   128 16 8 "mean" None (Some "mlp:2,1,4,0.0,0.0") world0)
                [0; 128]);
    vm_compute; reflexivity.
Defined.

(* ================================================================== *)
(** ** The weighted binary cross-entropy *)

Section Loss.

Local Open Scope R_scope.

Lemma EPSILON_bounds : 0 < EPSILON <= 1.
Proof.
  unfold EPSILON.
  assert (H : 0 < 10 ^ 8) by (apply pow_lt; lra).
  assert (H1 : 10 <= 10 ^ 8) by (simpl; lra).
  split.
  - apply Rmult_lt_0_compat; [lra | now apply Rinv_0_lt_compat].
  - apply Rmult_le_reg_r with (10 ^ 8); [assumption|].
    rewrite Rmult_assoc, Rinv_l by lra. lra.
Qed.

Lemma clip_fin (x : R) :
  X.clip (Fin x) (Fin EPSILON) PInf = Fin (clip_below x).
Proof.
  unfold X.clip, X.ltb, clip_below. now destruct (Rlt_dec x EPSILON).
Qed.

Lemma clip_below_bounds (x : R) :
  EPSILON <= clip_below x /\ (x <= 1 -> clip_below x <= 1).
Proof.
  pose proof EPSILON_bounds. unfold clip_below.
  destruct (Rlt_dec x EPSILON); lra.
Qed.

Lemma log_fin (x : R) : 0 < x -> X.log (Fin x) = Fin (ln x).
Proof. intros H. unfold X.log. destruct (Rlt_dec 0 x); [reflexivity | contradiction]. Qed.

Lemma ln_le (x y : R) : 0 < x -> x <= y -> ln x <= ln y.
Proof.
  intros Hx [Hlt | ->]; [|lra]. left. now apply ln_increasing.
Qed.

(** The logarithm of a clipped value: taken of a number that is at least
    [EPSILON], so it lies between [ln EPSILON] and, for an argument that is
    at most 1, zero. *)
Lemma log_clip (x : R) :
  X.log (X.clip (Fin x) (Fin EPSILON) PInf) = Fin (ln (clip_below x)) /\
  ln EPSILON <= ln (clip_below x) /\
  (x <= 1 -> ln (clip_below x) <= 0).
Proof.
  pose proof EPSILON_bounds as [He _].
  destruct (clip_below_bounds x) as [Hlo Hhi].
  rewrite clip_fin, log_fin by lra. split; [reflexivity|]. split.
  - apply ln_le; assumption.
  - intros Hx. rewrite <- ln_1. apply ln_le; [lra | auto].
Qed.

(** Without the clipping the logarithm of a prediction 0 is minus
    infinity, and the loss entry for a target 1 is infinite. *)
Lemma log_of_zero_prediction : X.log (Fin 0) = NInf.
Proof.
  unfold X.log. destruct (Rlt_dec 0 0); [lra | reflexivity].
Qed.

(** One entry of the loss for real arguments. *)
Lemma weigthed_binary_crossentropy1_fin (p t w0 w1 : R) :
  weigthed_binary_crossentropy1 (Fin p) (Fin t) (Fin w0) (Fin w1)
  = Fin (- (w1 * t * ln (clip_below p)
            + w0 * (1 + - t) * ln (clip_below (1 + - p)))).
Proof.
  unfold weigthed_binary_crossentropy1.
  destruct (log_clip p) as [-> _].
  change (X.sub (Fin 1) (Fin p)) with (Fin (1 + - p)).
  destruct (log_clip (1 + - p)) as [-> _].
  reflexivity.
Qed.

Lemma zip_with_ok (f : xreal -> xreal -> xreal) (a b : list xreal) :
  length a = length b ->
  X.zip_with f a b = Ok (map (fun p => f (fst p) (snd p)) (combine a b)).
Proof. intros H. unfold X.zip_with. now rewrite H, Nat.eqb_refl. Qed.

(** The loss on tensors is the entry-wise loss. *)
Lemma weigthed_binary_crossentropy_entries (predictions targets : list xreal)
    (w0 w1 : xreal) :
  length predictions = length targets ->
  weigthed_binary_crossentropy predictions targets w0 w1
  = Ok (map (fun pt => weigthed_binary_crossentropy1 (fst pt) (snd pt) w0 w1)
            (combine predictions targets)).
Proof.
  intros Hlen. unfold weigthed_binary_crossentropy.
  rewrite zip_with_ok by (rewrite !length_map; auto). cbn [rbind].
  rewrite zip_with_ok by (rewrite !length_map; auto). cbn [rbind].
  rewrite zip_with_ok
    by (rewrite !length_map, !length_combine, !length_map; reflexivity).
  cbn [rbind]. f_equal.
  revert targets Hlen.
  induction predictions as [|p ps IH]; intros [|t ts] Hlen;
    try discriminate; [reflexivity|].
  cbn [map combine fst snd]. f_equal.
  apply IH. now injection Hlen.
Qed.

(** C5.  For predictions in [[0, 1]] (0 and 1 included), binary targets of
    the same shape and real weights, the loss is computed and every entry
    of it is a real number, neither infinite nor NaN; its magnitude is at
    most [(|w0| + |w1|) * - ln EPSILON], because each logarithm is taken of
    a value clipped below at [EPSILON]. *)
Theorem weigthed_binary_crossentropy_finite (predictions targets : list R)
    (w0 w1 : R) :
  length predictions = length targets ->
  Forall (fun p => 0 <= p <= 1) predictions ->
  Forall (fun t => t = 0 \/ t = 1) targets ->
  exists out,
    weigthed_binary_crossentropy (map Fin predictions) (map Fin targets)
                                 (Fin w0) (Fin w1) = Ok out /\
    length out = length predictions /\
    Forall (fun x => X.is_finite x /\
                     exists r, x = Fin r /\
                               Rabs r <= (Rabs w0 + Rabs w1) * - ln EPSILON) out.
Proof.
  intros Hlen Hp Ht.
  rewrite weigthed_binary_crossentropy_entries by (rewrite !length_map; exact Hlen).
  eexists. split; [reflexivity|]. split.
  { rewrite length_map, length_combine, !length_map, <- Hlen. apply Nat.min_id. }
  revert targets Hlen Ht.
  induction Hp as [|p ps Hp0 Hps IH]; intros [|t ts] Hlen Ht; try discriminate;
    [constructor|].
  inversion Ht as [|? ? Ht0 Hts]; subst.
  cbn [map combine fst snd]. constructor.
  - rewrite weigthed_binary_crossentropy1_fin.
    split; [eexists; reflexivity|]. eexists. split; [reflexivity|].
    destruct (log_clip p) as (_ & Hlo & Hhi).
    destruct (log_clip (1 + - p)) as (_ & Hlo' & Hhi').
    specialize (Hhi ltac:(lra)). specialize (Hhi' ltac:(lra)).
    set (a := ln (clip_below p)) in *. set (b := ln (clip_below (1 + - p))) in *.
    set (e := ln EPSILON) in *.
    pose proof (Rabs_pos w0). pose proof (Rabs_pos w1).
    pose proof (Rle_abs w0). pose proof (Rle_abs w1).
    pose proof (Rle_abs (- w0)) as H0'. pose proof (Rle_abs (- w1)) as H1'.
    rewrite Rabs_Ropp in H0', H1'.
    apply Rabs_le. destruct Ht0 as [-> | ->]; split; nra.
  - apply IH; [now injection Hlen | assumption].
Qed.

End Loss.

(** [weigthed_binary_crossentropy_finite] on predictions 0, 1 and one
    half. *)
Lemma weigthed_binary_crossentropy_finite_witness :
  exists out,
    weigthed_binary_crossentropy (map Fin [0; 1; / 2]%R) (map Fin [0; 1; 1]%R)
                                 (Fin 1) (Fin 2) = Ok out /\
    length out = length [0; 1; / 2]%R /\
    Forall (fun x => X.is_finite x /\
                     exists r, x = Fin r /\
                               (Rabs r <= (Rabs 1 + Rabs 2) * - ln EPSILON)%R) out.
Proof.
  apply (weigthed_binary_crossentropy_finite [0; 1; / 2]%R [0; 1; 1]%R 1%R 2%R).
  - reflexivity.
  - repeat constructor; lra.
  - repeat apply Forall_cons; [left | right | right | apply Forall_nil];
      reflexivity.
Defined.

(* ================================================================== *)
(** * Further properties *)

(** ** The layers the builders stack *)

Lemma concat_repeat_snoc {A : Type} (b : list A) (n : nat) :
  concat (repeat b n) ++ b = b ++ concat (repeat b n).
Proof.
  induction n as [|n IH]; cbn [repeat concat].
  - now rewrite app_nil_r.
  - now rewrite <- app_assoc, IH.
Qed.

Lemma filter_concat_repeat {A : Type} (f : A -> bool) (b : list A) (n : nat) :
  length (filter f (concat (repeat b n))) = (n * length (filter f b))%nat.
Proof.
  induction n as [|n IH]; cbn [repeat concat]; [reflexivity|].
  rewrite filter_app, length_app, IH. lia.
Qed.

(** X1.  [build_mlp] stacks, on the input layer of shape
    [(None, input_size)], an input dropout when [drop_input] is not zero and
    then [depth] times a dense layer of [width] rectified units, each
    followed by a dropout when [drop_hidden] is not zero; a [depth] that is
    zero or negative adds no hidden layer. *)
Theorem build_mlp_layers (input_var : option theano_var) (depth width : Z)
    (drop_input drop_hidden : pyfloat) (input_size : Z) :
  let layers :=
    all_layers (build_mlp input_var depth width drop_input drop_hidden input_size) in
  layers
  = KInput [None; Some input_size]
    :: (if float_truth drop_input then [KDropout drop_input] else [])
    ++ concat (repeat (mlp_block width drop_hidden) (Z.to_nat depth)) /\
  length (filter is_dense layers) = Z.to_nat depth /\
  length (filter is_dropout layers)
  = ((if float_truth drop_input then 1 else 0)
     + (if float_truth drop_hidden then Z.to_nat depth else 0))%nat.
Proof.
  cbv zeta.
  assert (H : all_layers (build_mlp input_var depth width drop_input drop_hidden
                                    input_size)
              = KInput [None; Some input_size]
                :: (if float_truth drop_input then [KDropout drop_input] else [])
                ++ concat (repeat (mlp_block width drop_hidden) (Z.to_nat depth))).
  { unfold build_mlp, repeat_layers.
    induction (Z.to_nat depth) as [|n IH].
    - cbn [Nat.iter nat_rect repeat concat]. rewrite app_nil_r.
      now destruct (float_truth drop_input).
    - rewrite Nat.iter_succ. cbn [repeat concat].
      rewrite <- concat_repeat_snoc. unfold mlp_block in *.
      destruct (float_truth drop_hidden); cbn [all_layers]; rewrite IH;
        cbn [app]; now rewrite <- !app_assoc. }
  rewrite H. split; [reflexivity|].
  cbn [filter is_dense is_dropout]. rewrite !filter_app, !length_app.
  rewrite !filter_concat_repeat. unfold mlp_block.
  destruct (float_truth drop_input), (float_truth drop_hidden);
    cbn [filter is_dense is_dropout length]; split; lia.
Qed.

(** X2.  [build_lstm] stacks, on the input layer of shape
    [(None, seq_length, input_size)], [depth] recurrent layers of [width]
    units with the given gradient clipping, the tanh and the given forget
    bias, and a slice that keeps the last step of axis 1 on top. *)
Theorem build_lstm_layers (input_var : option theano_var)
    (seq_length depth width input_size grad_clip : Z) (forget_bias : pyfloat) :
  let layers :=
    all_layers (build_lstm input_var seq_length depth width input_size grad_clip
                           forget_bias) in
  layers
  = KInput [None; Some seq_length; Some input_size]
    :: repeat (KLSTM width grad_clip tanh forget_bias) (Z.to_nat depth)
    ++ [KSlice (-1) 1] /\
  length (filter is_lstm layers) = Z.to_nat depth.
Proof.
  cbv zeta. unfold build_lstm, repeat_layers. cbn [all_layers].
  assert (H : forall n,
             all_layers
               (Nat.iter n
                  (fun network => LSTMLayer network width grad_clip tanh forget_bias)
                  (InputLayer [None; Some seq_length; Some input_size] input_var))
             = KInput [None; Some seq_length; Some input_size]
               :: repeat (KLSTM width grad_clip tanh forget_bias) n).
  { induction n as [|n IH]; [reflexivity|].
    rewrite Nat.iter_succ. cbn [all_layers]. rewrite IH.
    change (KInput [None; Some seq_length; Some input_size]
            :: repeat (KLSTM width grad_clip tanh forget_bias) (S n))
      with (KInput [None; Some seq_length; Some input_size]
            :: repeat (KLSTM width grad_clip tanh forget_bias) (1 + n)).
    rewrite Nat.add_comm, repeat_app. reflexivity. }
  rewrite H. split; [reflexivity|].
  cbn [filter is_lstm app]. rewrite filter_app, length_app. cbn [filter is_lstm length].
  rewrite Nat.add_0_r.
  induction (Z.to_nat depth) as [|n IH]; [reflexivity|].
  cbn [repeat filter is_lstm length]. now rewrite IH.
Qed.

(* ================================================================== *)
(** ** Decimal strings and the configuration string *)

Section Decimal.

Import Decimal.

Let fmt (d : uint) : string := DecimalString.NilEmpty.string_of_uint d.

Lemma span_digits_fmt (d : uint) : PyStr.span_digits (fmt d) = (fmt d, ""%string).
Proof.
  induction d; cbn [fmt DecimalString.NilEmpty.string_of_uint PyStr.span_digits];
    try reflexivity;
    (change (PyStr.is_digit _) with true; cbv iota;
     fold (fmt d); now rewrite IHd).
Qed.

Lemma rstrip_fmt (d : uint) : PyStr.rstrip (fmt d) = fmt d.
Proof.
  induction d; cbn [fmt DecimalString.NilEmpty.string_of_uint PyStr.rstrip];
    try reflexivity;
    (fold (fmt d); rewrite IHd; destruct (fmt d); reflexivity).
Qed.

Lemma lstrip_fmt (d : uint) : PyStr.lstrip (fmt d) = fmt d.
Proof. destruct d; reflexivity. Qed.

Lemma digits_value_fmt (d : uint) (acc : nat) :
  PyStr.digits_value_from (Z.of_nat acc) (fmt d) = Z.of_nat (Nat.of_uint_acc d acc).
Proof.
  revert acc.
  induction d; intros acc;
    cbn [fmt DecimalString.NilEmpty.string_of_uint PyStr.digits_value_from
         Nat.of_uint_acc];
    try reflexivity;
    (fold (fmt d); rewrite <- IHd; f_equal;
     rewrite Nat.tail_mul_spec;
     match goal with
     | |- context [PyStr.digit_val ?c] =>
         let v := eval vm_compute in (PyStr.digit_val c) in
         change (PyStr.digit_val c) with v
     end; lia).
Qed.

Lemma py_int_fmt (d : uint) :
  d <> Nil -> py_int (fmt d) = Ok (Z.of_nat (Nat.of_uint d)).
Proof.
  intros Hd. unfold py_int, PyStr.strip. rewrite lstrip_fmt, rstrip_fmt.
  pose proof (span_digits_fmt d) as Hs. pose proof (digits_value_fmt d 0) as Hv.
  destruct d; try contradiction;
    cbn [fmt DecimalString.NilEmpty.string_of_uint PyStr.take_sign] in *;
    rewrite Hs; unfold PyStr.digits_value, Nat.of_uint; now rewrite <- Hv.
Qed.

Lemma split_fmt (d : uint) : PyStr.split "," (fmt d) = [fmt d].
Proof.
  induction d; cbn [fmt DecimalString.NilEmpty.string_of_uint PyStr.split];
    try reflexivity;
    (change (Ascii.eqb _ ",") with false; cbv iota; fold (fmt d); now rewrite IHd).
Qed.

Lemma split_fmt_comma (d : uint) (rest : string) :
  PyStr.split "," (fmt d ++ String "," rest)%string = fmt d :: PyStr.split "," rest.
Proof.
  induction d;
    cbn [fmt DecimalString.NilEmpty.string_of_uint PyStr.split String.append];
    try (change (Ascii.eqb "," ",") with true; cbv iota; reflexivity);
    (change (Ascii.eqb _ ",") with false; cbv iota; fold (fmt d); now rewrite IHd).
Qed.

End Decimal.

Lemma to_uint_not_nil (n : nat) : Nat.to_uint n <> Decimal.Nil.
Proof.
  destruct n as [|n]; [discriminate|].
  intros H. pose proof (DecimalNat.Unsigned.of_to (S n)) as E.
  rewrite H in E. discriminate.
Qed.

(** [int('%d' % n) == n] *)
Lemma py_int_format_d (n : nat) : py_int (py_format_d n) = Ok (Z.of_nat n).
Proof.
  unfold py_format_d. rewrite py_int_fmt by apply to_uint_not_nil.
  now rewrite DecimalNat.Unsigned.of_to.
Qed.

Lemma py_format_d_inj (i j : nat) : py_format_d i = py_format_d j -> i = j.
Proof.
  intros H. pose proof (py_int_format_d i) as Hi. rewrite H, py_int_format_d in Hi.
  injection Hi as Hi. lia.
Qed.

Lemma lstm_prm_fields (n_outputs seq_length width depth : nat) :
  PyStr.startswith "mlp:" (lstm_prm n_outputs seq_length width depth) = false /\
  PyStr.startswith "lstm:" (lstm_prm n_outputs seq_length width depth) = true /\
  exists tail,
    PyStr.index (PyStr.split1 ":" (lstm_prm n_outputs seq_length width depth)) 1
    = Ok tail /\
    PyStr.split "," tail
    = [py_format_d n_outputs; py_format_d seq_length; py_format_d width;
       py_format_d depth].
Proof.
  unfold lstm_prm. cbn [String.append].
  split; [reflexivity|]. split.
  { unfold PyStr.startswith.
    set (rest := (py_format_d n_outputs ++ _)%string).
    cbn. now destruct rest. }
  eexists. split; [reflexivity|].
  unfold py_format_d. now rewrite !split_fmt_comma, split_fmt.
Qed.

Section BuildModelMore.

Variables (input_var : option theano_var) (input_size grad_clip : Z)
          (forget_bias : pyfloat).

(** The library accepts the layers of [build_lstm] exactly when the
    sequence length and the input size are positive and, if there is a
    recurrent layer at all, so is the width. *)
Lemma accepted_build_lstm (seq_length depth width : Z) :
  accepted (build_lstm input_var seq_length depth width input_size grad_clip forget_bias)
  = (0 <? seq_length) && (0 <? input_size) && ((depth <=? 0) || (0 <? width)).
Proof.
  unfold build_lstm, repeat_layers. cbn [accepted].
  assert (Hk : (depth <=? 0) = (Z.to_nat depth =? 0)%nat).
  { destruct (Z.leb_spec depth 0), (Nat.eqb_spec (Z.to_nat depth) 0); lia. }
  rewrite Hk. generalize (Z.to_nat depth) as k. intros k.
  induction k as [|k IH].
  - change (Nat.iter 0 ?f ?x) with x.
    cbn [accepted forallb positive_dim andb]. now rewrite !andb_true_r.
  - rewrite Nat.iter_succ. cbn [accepted Nat.eqb orb]. rewrite IH.
    destruct (0 <? seq_length), (0 <? input_size), (0 <? width), (k =? 0)%nat;
      reflexivity.
Qed.

Lemma ltb_of_nat (k : nat) : (0 <? Z.of_nat k) = (0 <? k)%nat.
Proof. destruct k; reflexivity. Qed.

Lemma leb_of_nat (k : nat) : (Z.of_nat k <=? 0) = (k =? 0)%nat.
Proof. destruct k; reflexivity. Qed.

(** X3.  The configuration string ["lstm:%d,%d,%d,%d"] of the numbers
    [n_outputs], [seq_length], [width] and [depth], in this order, builds
    the recurrent network of that sequence length, depth and width, with
    the [grad_clip] and [forget_bias] of the call, under heads of
    [2 * n_outputs] and [n_outputs] units, when the library accepts the
    sizes: [seq_length], [input_size] and [n_outputs] positive, and [width]
    positive unless [depth] is 0.  With other sizes the call raises the
    library's [ValueError]. *)
Theorem build_model_lstm_prm (n_outputs seq_length width depth : nat) :
  let trunk :=
    build_lstm input_var (Z.of_nat seq_length) (Z.of_nat depth) (Z.of_nat width)
               input_size grad_clip forget_bias in
  build_model (Some (lstm_prm n_outputs seq_length width depth)) input_var
              input_size grad_clip forget_bias
  = if (0 <? seq_length)%nat && (0 <? input_size)
       && ((depth =? 0)%nat || (0 <? width)%nat) && (0 <? n_outputs)%nat
    then Ok (DenseLayer trunk (Z.of_nat n_outputs * 2) None,
             DenseLayer trunk (Z.of_nat n_outputs) (Some sigmoid))
    else Raise (builtin_error ValueError).
Proof.
  cbv zeta.
  destruct (lstm_prm_fields n_outputs seq_length width depth)
    as (Hmlp & Hlstm & tail & Htail & Hsplit).
  unfold build_model. cbn [attribute_of rbind].
  rewrite Hmlp, Hlstm, Htail. cbn [rbind]. rewrite Hsplit.
  rewrite !py_int_format_d. cbn [rbind].
  unfold constructed at 1. rewrite accepted_build_lstm.
  rewrite !ltb_of_nat, leb_of_nat.
  destruct ((0 <? seq_length)%nat && (0 <? input_size)
            && ((depth =? 0)%nat || (0 <? width)%nat)) eqn:Htrunk;
    cbn [rbind andb]; [|reflexivity].
  rewrite py_int_format_d. cbn [rbind].
  unfold constructed. cbn [accepted]. rewrite accepted_build_lstm.
  rewrite !ltb_of_nat, leb_of_nat, Htrunk. cbn [andb].
  replace (0 <? Z.of_nat n_outputs * 2) with (0 <? n_outputs)%nat
    by (destruct n_outputs; [reflexivity|symmetry; apply Z.ltb_lt; lia]).
  destruct (0 <? n_outputs)%nat; reflexivity.
Qed.

(** X4.  A feed-forward configuration whose text after the colon does not
    have exactly five comma-separated fields, and a recurrent one that does
    not have exactly four, make [build_model] raise a [ValueError] (the
    unpacking of line 58 or 63). *)
Theorem build_model_field_count (model_prm tail : string) :
  PyStr.index (PyStr.split1 ":" model_prm) 1 = Ok tail ->
  (PyStr.startswith "mlp:" model_prm = true /\
   length (PyStr.split "," tail) <> 5%nat) \/
  (PyStr.startswith "mlp:" model_prm = false /\
   PyStr.startswith "lstm:" model_prm = true /\
   length (PyStr.split "," tail) <> 4%nat) ->
  build_model (Some model_prm) input_var input_size grad_clip forget_bias
  = Raise (builtin_error ValueError).
Proof.
  intros Htail H. unfold build_model. cbn [attribute_of rbind].
  destruct H as [[Hmlp Hlen] | (Hmlp & Hlstm & Hlen)].
  - rewrite Hmlp, Htail. cbn [rbind].
    destruct (PyStr.split "," tail) as [|a [|b [|c [|d [|e [|]]]]]];
      try reflexivity.
    now contradiction Hlen.
  - rewrite Hmlp, Hlstm, Htail. cbn [rbind].
    destruct (PyStr.split "," tail) as [|a [|b [|c [|d [|]]]]];
      try reflexivity.
    now contradiction Hlen.
Qed.

(** X5.  Whenever [build_model] returns, for either kind of network, the
    two heads are dense layers on one and the same trunk: the localization
    head has [2 * n_outputs] units and is given no nonlinearity, the
    confidence head has [n_outputs] units and the sigmoid. *)
Theorem build_model_paired_heads (model_prm : option string) (loc conf : layer) :
  build_model model_prm input_var input_size grad_clip forget_bias = Ok (loc, conf) ->
  exists network n_outputs,
    loc = DenseLayer network (n_outputs * 2) None /\
    conf = DenseLayer network n_outputs (Some sigmoid) /\
    output_units loc = (2 * output_units conf)%nat.
Proof. apply build_model_heads. Qed.

End BuildModelMore.

(** [build_model_field_count] on a feed-forward string of four fields. *)
Lemma build_model_field_count_witness :
  build_model (Some "mlp:5,1,4,0.0") None default_input_size default_grad_clip
              build_model_default_forget_bias
  = Raise (builtin_error ValueError).
Proof.
  apply (build_model_field_count None default_input_size default_grad_clip
           build_model_default_forget_bias "mlp:5,1,4,0.0" "5,1,4,0.0");
    [reflexivity | left; split; [reflexivity | discriminate]].
Defined.

(** [build_model_paired_heads] on a recurrent configuration. *)
Lemma build_model_paired_heads_witness :
  exists network n_outputs,
    DenseLayer (build_lstm None 8 2 4 default_input_size default_grad_clip
                           build_model_default_forget_bias) 10 None
    = DenseLayer network (n_outputs * 2) None /\
    DenseLayer (build_lstm None 8 2 4 default_input_size default_grad_clip
                           build_model_default_forget_bias) 5 (Some sigmoid)
    = DenseLayer network n_outputs (Some sigmoid) /\
    output_units
      (DenseLayer (build_lstm None 8 2 4 default_input_size default_grad_clip
                              build_model_default_forget_bias) 10 None)
    = (2 * output_units
             (DenseLayer (build_lstm None 8 2 4 default_input_size default_grad_clip
                                     build_model_default_forget_bias) 5
                         (Some sigmoid)))%nat.
Proof.
  apply (build_model_paired_heads None default_input_size default_grad_clip
           build_model_default_forget_bias (Some "lstm:5,8,4,2")).
  reflexivity.
Defined.

(* ================================================================== *)
(** ** More on proposal retrieval *)

(** X6.  With a positive stride the window starts are the multiples
    [0, stride, 2 * stride, ...] of the stride, and every window lies
    strictly inside the video: [0 <= start] and [start + T < L], so no
    window reaches the last frame. *)
Theorem offsets_within_video (L T stride : Z) (offs : list Z) :
  0 < stride ->
  f_init_array_of L T stride = Ok offs ->
  forall i, (i < length offs)%nat ->
    nth i offs 0 = Z.of_nat i * stride /\
    0 <= nth i offs 0 /\
    nth i offs 0 + T < L.
Proof.
  intros Hs H i Hi. unfold f_init_array_of in H.
  rewrite (arange_nth _ _ _ _ _ H Hi).
  rewrite (arange_length _ _ _ _ H) in Hi.
  assert (Ha : 0 < L - T).
  { destruct (Z_lt_le_dec 0 (L - T)) as [|Hle]; [assumption|].
    assert (0 <= (0 - (L - T)) / stride) by (apply Z.div_pos; lia). lia. }
  rewrite ceil_div_pos in Hi by lia.
  pose proof (Z.mul_div_le (L - T - 1) stride Hs).
  assert (0 <= (L - T - 1) / stride) by (apply Z.div_pos; lia).
  repeat split; nia.
Qed.

(** [offsets_within_video] at the last window of a video of 600 frames,
    default window and stride. *)
Lemma offsets_within_video_witness :
  nth 2 [0; 128; 256] 0 = Z.of_nat 2 * 128 /\
  0 <= nth 2 [0; 128; 256] 0 /\
  nth 2 [0; 128; 256] 0 + 256 < 600.
Proof.
  apply (offsets_within_video 600 256 128 [0; 128; 256]);
    [lia | reflexivity | simpl; lia].
Defined.

Section RetrieveMore.

Variables (E : externals) (video_name : string) (l_size : Z)
          (network : layer * layer) (T c3d_size c3d_stride : Z)
          (pool_type : string) (hdf5_dataset : option string).

Let fobj : Feature := Build_Feature hdf5_dataset c3d_size c3d_stride pool_type.

(** X7.  Two calls that always fail, with the store left open: a zero
    stride raises [ZeroDivisionError] before the store is read, and the
    default [model_prm=None] raises [AttributeError] right after the read
    (line 139), whatever the video. *)
Theorem retrieve_proposals_raises_early (w : world) :
  (forall model_prm,
      retrieve_proposals E video_name l_size network T 0 c3d_size c3d_stride
                         pool_type hdf5_dataset model_prm w
      = (Raise (builtin_error ZeroDivisionError),
         World true (trace w ++ [EvOpen]))) /\
  (forall stride f_init_array feat_stack0,
      f_init_array_of l_size T stride = Ok f_init_array ->
      feature_batch E fobj video_name f_init_array T = Ok feat_stack0 ->
      retrieve_proposals E video_name l_size network T stride c3d_size c3d_stride
                         pool_type hdf5_dataset None w
      = (Raise (builtin_error AttributeError),
         World true (trace w ++ [EvOpen; EvRead video_name f_init_array T]))).
Proof.
  split.
  - intros model_prm. reflexivity.
  - intros stride f_init_array feat_stack0 Hf Hb.
    unfold retrieve_proposals, scan_video, bind, lift, open_instance,
      read_feat_batch_from_video.
    cbv zeta. fold fobj. rewrite Hf. cbn [handle_open trace]. rewrite Hb.
    cbn [reshape_for_model attribute_of rbind]. now rewrite <- app_assoc.
Qed.

Variables (stride : Z) (model_prm : option string).

Let run : M (matrix Z * list Q) :=
  retrieve_proposals E video_name l_size network T stride c3d_size c3d_stride
                     pool_type hdf5_dataset model_prm.

(** X8.  [retrieve_proposals] returns proposals and scores, with the store
    closed, whenever the window offsets, the batched read and the reshape
    raise nothing and the two heads give [2n] and [n] values per sample:
    the stages after the scan cannot fail then. *)
Theorem retrieve_proposals_total (w : world) (f_init_array : list Z)
    (feat_stack0 feat_stack : ndarray Q) :
  heads_shaped E network ->
  f_init_array_of l_size T stride = Ok f_init_array ->
  feature_batch E fobj video_name f_init_array T = Ok feat_stack0 ->
  reshape_for_model model_prm feat_stack0 = Ok feat_stack ->
  exists proposal score,
    run w = (Ok (proposal, score),
             World false
                   (trace w ++ [EvOpen; EvRead video_name f_init_array T; EvClose])).
Proof. apply retrieve_proposals_returns. Qed.

(** X9.  For a window size that is not negative, every coordinate pair
    handed to [segment_format] stays with its window: the first entry lies
    between the window start and the window start plus [T], the second
    between 0 and [T]. *)
Theorem coordinates_within_window (w w' : world) (proposal : matrix Z)
    (score : list Q) :
  heads_shaped E network ->
  0 <= T ->
  run w = (Ok (proposal, score), w') ->
  exists f_init_array feat_stack loc score2d map_array coords,
    scan_video E fobj video_name l_size T stride model_prm w
    = (Ok (f_init_array, feat_stack), w') /\
    forward_pass E network feat_stack = Ok (loc, score2d) /\
    map_array_of f_init_array (nrows score2d) (ncols score2d) = Ok map_array /\
    coordinates_of map_array loc T = Ok coords /\
    nrows coords = (length f_init_array * ncols score2d)%nat /\
    forall k, (k < nrows coords)%nat ->
      let start := inject_Z (nth (k / ncols score2d) f_init_array 0) in
      (start <= Np.get 0 coords k 0 <= start + inject_Z T)%Q /\
      (0 <= Np.get 0 coords k 1 <= inject_Z T)%Q.
Proof.
  intros Hheads HT Hrun.
  destruct (retrieve_proposals_inv E _ _ _ _ _ _ _ _ _ _ _ _ _ _ Hrun)
    as (f_init_array & feat_stack & Hscan & Hgen).
  unpack_stages E Hheads Hgen.
  exists f_init_array, feat_stack, loc, score2d, map_array, coords.
  repeat (split; [assumption|]).
  rewrite Hcs. split; [assumption|].
  rewrite Hrc. intros k Hk. cbv zeta.
  destruct (Hstart k Hk) as [Hs0 Hs1].
  rewrite (Hsum k 0%nat Hk ltac:(lia)), (Hsum k 1%nat Hk ltac:(lia)), Hs0, Hs1.
  assert (Ht : (0 <= inject_Z T)%Q)
    by (change 0%Q with (inject_Z 0); now rewrite <- Zle_Qle).
  assert (Hc : forall x, (0 <= Np.clip1 0 1 x * inject_Z T <= inject_Z T)%Q).
  { intros x. destruct (clip1_unit x) as ([H0 H1] & _). split.
    - now apply Qmult_le_0_compat.
    - rewrite <- (Qmult_1_l (inject_Z T)) at 2. now apply Qmult_le_compat_r. }
  split; split.
  - rewrite <- (Qplus_0_r (inject_Z _)) at 1. apply Qplus_le_r, Hc.
  - apply Qplus_le_r, Hc.
  - rewrite Qplus_0_l. apply Hc.
  - rewrite Qplus_0_l. apply Hc.
Qed.

(** X10.  With heads of [2n] and [n] values per sample the forward pass
    never raises; it returns one row of [n] scores per sample and, per
    sample, [n] localization rows of two entries: row [k] of [loc] holds
    the outputs [2 (k mod n)] and [2 (k mod n) + 1] of the localization head
    for sample [k / n]. *)
Theorem forward_pass_pairs (input_data : ndarray Q) :
  heads_shaped E network ->
  let n := output_units (snd network) in
  let b := hd 0%nat (shape input_data) in
  exists loc score,
    forward_pass E network input_data = Ok (loc, score) /\
    nrows score = b /\ ncols score = n /\
    nrows loc = (b * n)%nat /\ ncols loc = 2%nat /\
    forall k, (k < b * n)%nat ->
      Np.get 0%Q score (k / n) (k mod n)
      = nth (k mod n) (window_output E (snd network) input_data (k / n)) 0%Q /\
      row2 0%Q loc k
      = (nth (2 * (k mod n)) (window_output E (fst network) input_data (k / n)) 0%Q,
         nth (2 * (k mod n) + 1)
             (window_output E (fst network) input_data (k / n)) 0%Q).
Proof.
  intros Hheads n b.
  pose proof Hheads as (Hloc & Hconf & Hunits).
  destruct (forward_pass E network input_data) as [[loc score]|e] eqn:Hfwd.
  2:{ exfalso. unfold forward_pass, Np.reshape_pairs in Hfwd.
      cbn [eval_head nrows ncols] in Hfwd. rewrite Hunits in Hfwd.
      replace (hd 0%nat (shape input_data) * (2 * output_units (snd network)))%nat
        with (hd 0%nat (shape input_data) * output_units (snd network) * 2)%nat
        in Hfwd by lia.
      rewrite Nat.Div0.mod_mul in Hfwd. discriminate. }
  exists loc, score. split; [reflexivity|].
  destruct (forward_pass_entries E network input_data loc score Hheads Hfwd)
    as (Hrs & Hcs & Hls & Hrl & Hcl & Hll & Hent).
  fold n b in Hrs, Hcs, Hrl, Hent.
  repeat (split; [assumption|]).
  intros k Hk. destruct (Hent k Hk) as [Hsc Hlo].
  destruct (split_index k b n Hk) as (Ek & Hq & Hr).
  split.
  - rewrite <- Hsc. unfold Np.get, Np.flatten. rewrite Hcs. now rewrite <- Ek.
  - unfold row2. rewrite (Hlo 0%nat ltac:(lia)), (Hlo 1%nat ltac:(lia)).
    now rewrite Nat.add_0_r.
Qed.

End RetrieveMore.

(** [retrieve_proposals_total] on the run over 512 frames with stride
    100. *)
Lemma retrieve_proposals_total_witness :
  exists proposal score,
    retrieve_proposals demo_externals "v" 512 demo_network 256 100 16 8 "mean"
                       None (Some "mlp:2,1,4,0.0,0.0") world0
    = (Ok (proposal, score),
       World false (trace world0 ++ [EvOpen; EvRead "v" [0; 100; 200] 256; EvClose])).
Proof.
  eapply (retrieve_proposals_total demo_externals "v" 512 demo_network 256 16 8
            "mean" None 100 (Some "mlp:2,1,4,0.0,0.0") world0 [0; 100; 200]);
    [exact demo_heads_shaped | reflexivity | vm_compute; reflexivity
     | vm_compute; reflexivity].
Defined.

(** [coordinates_within_window] on the same run. *)
Lemma coordinates_within_window_witness :
  exists f_init_array feat_stack loc score2d map_array coords,
    scan_video demo_externals (Build_Feature None 16 8 "mean") "v" 512 256 100
               (Some "mlp:2,1,4,0.0,0.0") world0
    = (Ok (f_init_array, feat_stack), demo_world) /\
    forward_pass demo_externals demo_network feat_stack = Ok (loc, score2d) /\
    map_array_of f_init_array (nrows score2d) (ncols score2d) = Ok map_array /\
    coordinates_of map_array loc 256 = Ok coords /\
    nrows coords = (length f_init_array * ncols score2d)%nat /\
    forall k, (k < nrows coords)%nat ->
      let start := inject_Z (nth (k / ncols score2d) f_init_array 0) in
      (start <= Np.get 0 coords k 0 <= start + inject_Z 256)%Q /\
      (0 <= Np.get 0 coords k 1 <= inject_Z 256)%Q.
Proof.
  apply (coordinates_within_window demo_externals "v" 512 demo_network 256 16 8
           "mean" None 100 (Some "mlp:2,1,4,0.0,0.0") world0 demo_world
           demo_proposal demo_score demo_heads_shaped);
    [lia | exact demo_run_result].
Defined.

(** [forward_pass_pairs] on a batch of two samples. *)
Lemma forward_pass_pairs_witness :
  exists loc score,
    forward_pass demo_externals demo_network
                 (NdArray [2; 4]%nat [0; 1; 2; 3; 128; 1; 2; 3]%Q)
    = Ok (loc, score) /\
    nrows score = 2%nat /\ ncols score = 2%nat /\
    nrows loc = (2 * 2)%nat /\ ncols loc = 2%nat /\
    forall k, (k < 2 * 2)%nat ->
      Np.get 0%Q score (k / 2) (k mod 2)
      = nth (k mod 2)
            (window_output demo_externals (snd demo_network)
               (NdArray [2; 4]%nat [0; 1; 2; 3; 128; 1; 2; 3]%Q) (k / 2)) 0%Q /\
      row2 0%Q loc k
      = (nth (2 * (k mod 2))
             (window_output demo_externals (fst demo_network)
                (NdArray [2; 4]%nat [0; 1; 2; 3; 128; 1; 2; 3]%Q) (k / 2)) 0%Q,
         nth (2 * (k mod 2) + 1)
             (window_output demo_externals (fst demo_network)
                (NdArray [2; 4]%nat [0; 1; 2; 3; 128; 1; 2; 3]%Q) (k / 2)) 0%Q).
Proof.
  exact (forward_pass_pairs demo_externals demo_network
           (NdArray [2; 4]%nat [0; 1; 2; 3; 128; 1; 2; 3]%Q) demo_heads_shaped).
Defined.

(* ================================================================== *)
(** ** The reshape for a recurrent network *)

Lemma of_nat_not_minus_one (n : nat) : (Z.of_nat n =? -1) = false.
Proof. apply Z.eqb_neq. lia. Qed.

Lemma of_nat_not_negative (n : nat) : (Z.of_nat n <? 0) = false.
Proof. apply Z.ltb_ge. lia. Qed.

(** [a.reshape(b, s, q)] for dimensions that are not negative succeeds
    exactly when the sizes agree. *)
Lemma reshape_nat_dims (b D s q : nat) (d : list Q) :
  Np.reshape (NdArray [b; D] d) [Z.of_nat b; Z.of_nat s; Z.of_nat q]
  = if (b * (s * q) =? b * D)%nat then Ok (NdArray [b; s; q] d)
    else Raise (builtin_error ValueError).
Proof.
  unfold Np.reshape.
  cbn [filter existsb negb map shape data Np.size_of fold_right].
  rewrite !of_nat_not_minus_one. cbn [negb existsb map Np.size_of fold_right].
  rewrite !of_nat_not_negative. cbn [orb]. rewrite !Nat2Z.id, !Nat.mul_1_r.
  reflexivity.
Qed.

(** X11.  For a recurrent configuration ["lstm:%d,%d,%d,%d"] and a feature
    stack of [b] windows of [D] features: a sequence length 0 raises
    [ZeroDivisionError]; a sequence length that divides [D] reshapes the
    stack to [(b, seq_length, D / seq_length)] with the same entries; one
    that does not divide [D] raises [ValueError] as soon as there is a
    window, and is accepted for the empty batch. *)
Theorem reshape_for_lstm (n_outputs seq_length width depth b D : nat) (d : list Q) :
  let model_prm := Some (lstm_prm n_outputs seq_length width depth) in
  let feat_stack := NdArray [b; D] d in
  (seq_length = 0%nat ->
   reshape_for_model model_prm feat_stack
   = Raise (builtin_error ZeroDivisionError)) /\
  (seq_length <> 0%nat -> (D mod seq_length = 0 \/ b = 0)%nat ->
   reshape_for_model model_prm feat_stack
   = Ok (NdArray [b; seq_length; D / seq_length]%nat d)) /\
  (seq_length <> 0%nat -> (D mod seq_length <> 0)%nat -> b <> 0%nat ->
   reshape_for_model model_prm feat_stack = Raise (builtin_error ValueError)).
Proof.
  cbv zeta.
  destruct (lstm_prm_fields n_outputs seq_length width depth)
    as (_ & Hlstm & tail & Htail & Hsplit).
  assert (Hgen : reshape_for_model (Some (lstm_prm n_outputs seq_length width depth))
                   (NdArray [b; D] d)
                 = if (Z.of_nat seq_length =? 0)
                   then Raise (builtin_error ZeroDivisionError)
                   else Np.reshape (NdArray [b; D] d)
                          [Z.of_nat b; Z.of_nat seq_length;
                           Z.of_nat D / Z.of_nat seq_length]).
  { unfold reshape_for_model. cbn [attribute_of rbind].
    rewrite Hlstm, Htail. cbn [rbind]. rewrite Hsplit.
    cbn [shape PyStr.index nth_error rbind]. rewrite py_int_format_d.
    cbn [rbind]. now destruct (Z.of_nat seq_length =? 0). }
  rewrite Hgen, <- Nat2Z.inj_div, reshape_nat_dims.
  split; [|split].
  - intros ->. reflexivity.
  - intros Hs Hd.
    destruct (Z.eqb_spec (Z.of_nat seq_length) 0); [lia|].
    destruct (Nat.eqb_spec (b * (seq_length * (D / seq_length))) (b * D)) as [|Hne];
      [reflexivity|].
    exfalso. apply Hne. destruct Hd as [Hd | ->]; [|reflexivity].
    apply Nat.Div0.div_exact in Hd. now rewrite <- Hd.
  - intros Hs Hd Hb.
    destruct (Z.eqb_spec (Z.of_nat seq_length) 0); [lia|].
    destruct (Nat.eqb_spec (b * (seq_length * (D / seq_length))) (b * D)) as [He|];
      [|reflexivity].
    exfalso. apply Hd. apply Nat.Div0.div_exact.
    apply Nat.mul_cancel_l in He; [auto | assumption].
Qed.

(* ================================================================== *)
(** ** From the configuration string to the number of proposals *)

Section ConfiguredRun.

Variables (E : externals) (video_name : string) (l_size : Z)
          (T stride c3d_size c3d_stride : Z)
          (pool_type : string) (hdf5_dataset : option string)
          (model_prm : option string)
          (input_var : option theano_var) (input_size grad_clip : Z)
          (forget_bias : pyfloat).

(** X12.  When the network that [build_model] builds from a configuration
    string is run by [retrieve_proposals] and the call returns, there are
    [n_outputs] proposals per window, where [n_outputs] is what [int] reads
    in the first comma-separated field after the colon of that string (a
    positive number): the heads have [2 * n_outputs] and [n_outputs] units,
    and the proposals and the scores both count [windows * n_outputs]. *)
Theorem proposals_per_window_from_config (network : layer * layer) (w w' : world)
    (proposal : matrix Z) (score : list Q) :
  build_model model_prm input_var input_size grad_clip forget_bias = Ok network ->
  output_shaped E (fst network) ->
  output_shaped E (snd network) ->
  retrieve_proposals E video_name l_size network T stride c3d_size c3d_stride
                     pool_type hdf5_dataset model_prm w
  = (Ok (proposal, score), w') ->
  exists f_init_array trunk prm tail n_field rest n_outputs,
    model_prm = Some prm /\
    PyStr.index (PyStr.split1 ":" prm) 1 = Ok tail /\
    PyStr.split "," tail = n_field :: rest /\
    py_int n_field = Ok n_outputs /\
    0 < n_outputs /\
    network = (DenseLayer trunk (n_outputs * 2) None,
               DenseLayer trunk n_outputs (Some sigmoid)) /\
    f_init_array_of l_size T stride = Ok f_init_array /\
    nrows proposal = (length f_init_array * Z.to_nat n_outputs)%nat /\
    length score = (length f_init_array * Z.to_nat n_outputs)%nat.
Proof.
  intros Hbuild Hloc Hconf Hrun. destruct network as [loc conf].
  destruct (build_model_inv _ _ _ _ _ _ _ Hbuild)
    as (prm & tail & n_field & rest & trunk & n_outputs &
        Hprm & Htail & Hsplit & Hint & Hpos & _ & -> & ->).
  assert (Hheads : heads_shaped E (DenseLayer trunk (n_outputs * 2) None,
                                   DenseLayer trunk n_outputs (Some sigmoid))).
  { split; [exact Hloc|]. split; [exact Hconf|]. cbn [fst snd output_units]. lia. }
  destruct (retrieve_proposals_inv E _ _ _ _ _ _ _ _ _ _ _ _ _ _ Hrun)
    as (f_init_array & feat_stack & Hscan & Hgen).
  destruct (scan_video_inv E _ _ _ _ _ _ _ _ _ _ Hscan) as (Hf & _ & _).
  destruct (generate_proposals_shapes E _ _ _ _ _ _ Hheads Hgen)
    as (loc & score2d & map_array & coords & formatted &
        (_ & _ & _ & _ & Hprop & Hscore) &
        (_ & _ & _ & Hls & _ & _ & _ & _ & _ & _ & Hrf & _)).
  exists f_init_array, trunk, prm, tail, n_field, rest, n_outputs.
  split; [exact Hprm|]. split; [exact Htail|]. split; [exact Hsplit|].
  split; [exact Hint|]. split; [exact Hpos|].
  split; [reflexivity|]. split; [exact Hf|].
  rewrite Hprop, Hscore. split; [exact Hrf | exact Hls].
Qed.

End ConfiguredRun.

Lemma demo_output_shaped (l : layer) : output_shaped demo_externals l.
Proof. intros sh x. cbn. now rewrite length_map, length_seq. Qed.

(** [proposals_per_window_from_config] on the network built from
    "mlp:2,1,4,0.0,0.0", run over 512 frames with stride 100. *)
Lemma proposals_per_window_from_config_witness :
  exists f_init_array trunk prm tail n_field rest n_outputs,
    Some "mlp:2,1,4,0.0,0.0" = Some prm /\
    PyStr.index (PyStr.split1 ":" prm) 1 = Ok tail /\
    PyStr.split "," tail = n_field :: rest /\
    py_int n_field = Ok n_outputs /\
    0 < n_outputs /\
    (DenseLayer (mlp_trunk_1_4 None 4) 4 None,
     DenseLayer (mlp_trunk_1_4 None 4) 2 (Some sigmoid))
    = (DenseLayer trunk (n_outputs * 2) None,
       DenseLayer trunk n_outputs (Some sigmoid)) /\
    f_init_array_of 512 256 100 = Ok f_init_array /\
    nrows demo_proposal = (length f_init_array * Z.to_nat n_outputs)%nat /\
    length demo_score = (length f_init_array * Z.to_nat n_outputs)%nat.
Proof.
  apply (proposals_per_window_from_config demo_externals "v" 512 256 100 16 8 "mean"
           None (Some "mlp:2,1,4,0.0,0.0") None 4 default_grad_clip
           build_model_default_forget_bias
           (DenseLayer (mlp_trunk_1_4 None 4) 4 None,
            DenseLayer (mlp_trunk_1_4 None 4) 2 (Some sigmoid))
           world0 demo_world demo_proposal demo_score);
    [reflexivity | apply demo_output_shaped | apply demo_output_shaped
     | vm_compute; reflexivity].
Defined.

(* ================================================================== *)
(** ** More on the weighted binary cross-entropy *)

Section LossMore.

Local Open Scope R_scope.

Lemma clip_below_id (x : R) : EPSILON <= x -> clip_below x = x.
Proof. intros H. unfold clip_below. destruct (Rlt_dec x EPSILON); lra. Qed.

Lemma clip_below_floor (x : R) : x <= EPSILON -> clip_below x = EPSILON.
Proof. intros H. unfold clip_below. destruct (Rlt_dec x EPSILON); lra. Qed.

Lemma ln_EPSILON_neg : ln EPSILON <= 0.
Proof.
  destruct EPSILON_bounds as [H0 H1]. rewrite <- ln_1. now apply ln_le.
Qed.

(** X13.  With both weights 1 and predictions that the clipping leaves
    alone (between [EPSILON] and [1 - EPSILON]) the loss is the plain binary
    cross-entropy [-(t ln p + (1 - t) ln (1 - p))], entry by entry. *)
Theorem unit_weights_give_binary_crossentropy (predictions targets : list R) :
  length predictions = length targets ->
  Forall (fun p => EPSILON <= p <= 1 - EPSILON) predictions ->
  weigthed_binary_crossentropy (map Fin predictions) (map Fin targets)
                               (Fin 1) (Fin 1)
  = Ok (map (fun pt => Fin (- (snd pt * ln (fst pt)
                               + (1 - snd pt) * ln (1 - fst pt))))
            (combine predictions targets)).
Proof.
  intros Hlen Hp.
  rewrite weigthed_binary_crossentropy_entries by (rewrite !length_map; exact Hlen).
  f_equal. revert targets Hlen.
  induction Hp as [|p ps Hp0 Hps IH]; intros [|t ts] Hlen; try discriminate;
    [reflexivity|].
  cbn [map combine fst snd]. f_equal; [|apply IH; now injection Hlen].
  rewrite weigthed_binary_crossentropy1_fin.
  rewrite !clip_below_id by lra. f_equal.
  replace (1 + - p) with (1 - p) by ring. ring.
Qed.

(** X14.  With weights that are not negative, predictions in [[0, 1]] and
    binary targets, no entry of the loss is negative. *)
Theorem loss_nonnegative (predictions targets : list R) (w0 w1 : R) :
  length predictions = length targets ->
  0 <= w0 -> 0 <= w1 ->
  Forall (fun p => 0 <= p <= 1) predictions ->
  Forall (fun t => t = 0 \/ t = 1) targets ->
  exists out,
    weigthed_binary_crossentropy (map Fin predictions) (map Fin targets)
                                 (Fin w0) (Fin w1) = Ok out /\
    Forall (fun x => exists r, x = Fin r /\ 0 <= r) out.
Proof.
  intros Hlen Hw0 Hw1 Hp Ht.
  rewrite weigthed_binary_crossentropy_entries by (rewrite !length_map; exact Hlen).
  eexists. split; [reflexivity|].
  revert targets Hlen Ht.
  induction Hp as [|p ps Hp0 Hps IH]; intros [|t ts] Hlen Ht; try discriminate;
    [constructor|].
  inversion Ht as [|? ? Ht0 Hts]; subst.
  cbn [map combine fst snd]. constructor.
  - rewrite weigthed_binary_crossentropy1_fin. eexists. split; [reflexivity|].
    destruct (log_clip p) as (_ & _ & Hhi).
    destruct (log_clip (1 + - p)) as (_ & _ & Hhi').
    specialize (Hhi ltac:(lra)). specialize (Hhi' ltac:(lra)).
    destruct Ht0 as [-> | ->]; nra.
  - apply IH; [now injection Hlen | assumption].
Qed.

(** X15.  One entry of the loss at its ends.  A prediction that equals its
    binary target costs nothing.  For a target 1 every prediction at or
    below [EPSILON] costs the same [w1 * - ln EPSILON], and for a target 0
    every prediction at or above [1 - EPSILON] costs [w0 * - ln EPSILON]:
    the loss is capped there instead of growing without bound. *)
Theorem loss_entry_ends (w0 w1 : R) :
  weigthed_binary_crossentropy1 (Fin 1) (Fin 1) (Fin w0) (Fin w1) = Fin 0 /\
  weigthed_binary_crossentropy1 (Fin 0) (Fin 0) (Fin w0) (Fin w1) = Fin 0 /\
  (forall p, p <= EPSILON ->
     weigthed_binary_crossentropy1 (Fin p) (Fin 1) (Fin w0) (Fin w1)
     = Fin (w1 * - ln EPSILON)) /\
  (forall p, 1 - EPSILON <= p ->
     weigthed_binary_crossentropy1 (Fin p) (Fin 0) (Fin w0) (Fin w1)
     = Fin (w0 * - ln EPSILON)).
Proof.
  destruct EPSILON_bounds as [He0 He1].
  repeat split.
  - rewrite weigthed_binary_crossentropy1_fin, (clip_below_id 1) by lra.
    rewrite ln_1. f_equal. ring.
  - rewrite weigthed_binary_crossentropy1_fin.
    replace (1 + - 0) with 1 by ring.
    rewrite (clip_below_id 1) by lra. rewrite ln_1. f_equal. ring.
  - intros p Hp. rewrite weigthed_binary_crossentropy1_fin.
    rewrite (clip_below_floor p) by lra. f_equal. ring.
  - intros p Hp. rewrite weigthed_binary_crossentropy1_fin.
    rewrite (clip_below_floor (1 + - p)) by lra. f_equal. ring.
Qed.

Lemma ln_clip_below_mono (x y : R) : x <= y -> ln (clip_below x) <= ln (clip_below y).
Proof.
  intros H. destruct EPSILON_bounds as [He0 _].
  destruct (clip_below_bounds x) as [Hx _].
  apply ln_le; [lra|]. unfold clip_below.
  destruct (Rlt_dec x EPSILON), (Rlt_dec y EPSILON); lra.
Qed.

(** X16.  With weights that are not negative the loss falls as the
    prediction moves toward the target: for a target 1 a larger prediction
    never costs more, for a target 0 a smaller one never does. *)
Theorem loss_entry_monotone (p q w0 w1 : R) :
  p <= q -> 0 <= w0 -> 0 <= w1 ->
  exists at_p_1 at_q_1 at_p_0 at_q_0,
    weigthed_binary_crossentropy1 (Fin p) (Fin 1) (Fin w0) (Fin w1) = Fin at_p_1 /\
    weigthed_binary_crossentropy1 (Fin q) (Fin 1) (Fin w0) (Fin w1) = Fin at_q_1 /\
    weigthed_binary_crossentropy1 (Fin p) (Fin 0) (Fin w0) (Fin w1) = Fin at_p_0 /\
    weigthed_binary_crossentropy1 (Fin q) (Fin 0) (Fin w0) (Fin w1) = Fin at_q_0 /\
    at_q_1 <= at_p_1 /\
    at_p_0 <= at_q_0.
Proof.
  intros Hpq Hw0 Hw1.
  rewrite !weigthed_binary_crossentropy1_fin.
  do 4 eexists. repeat split.
  - pose proof (ln_clip_below_mono p q Hpq). nra.
  - pose proof (ln_clip_below_mono (1 + - q) (1 + - p) ltac:(lra)). nra.
Qed.

End LossMore.

(** [unit_weights_give_binary_crossentropy] on predictions one half and
    one quarter. *)
Lemma unit_weights_give_binary_crossentropy_witness :
  weigthed_binary_crossentropy (map Fin [/ 2; / 4]%R) (map Fin [1; 0]%R)
                               (Fin 1) (Fin 1)
  = Ok (map (fun pt => Fin (- (snd pt * ln (fst pt)
                               + (1 - snd pt) * ln (1 - fst pt)))%R)
            (combine [/ 2; / 4]%R [1; 0]%R)).
Proof.
  apply (unit_weights_give_binary_crossentropy [/ 2; / 4]%R [1; 0]%R).
  - reflexivity.
  - pose proof EPSILON_bounds.
    assert (EPSILON <= / 4)%R.
    { unfold EPSILON. apply Rmult_le_reg_r with (10 ^ 8)%R; [apply pow_lt; lra|].
      rewrite Rmult_assoc, Rinv_l by (apply pow_nonzero; lra). simpl. lra. }
    repeat apply Forall_cons; [lra | lra | apply Forall_nil].
Defined.

(** [loss_nonnegative] on predictions 0, 1 and one half. *)
Lemma loss_nonnegative_witness :
  exists out,
    weigthed_binary_crossentropy (map Fin [0; 1; / 2]%R) (map Fin [0; 1; 1]%R)
                                 (Fin 1) (Fin 2) = Ok out /\
    Forall (fun x => exists r, x = Fin r /\ (0 <= r)%R) out.
Proof.
  apply (loss_nonnegative [0; 1; / 2]%R [0; 1; 1]%R 1%R 2%R).
  - reflexivity.
  - lra.
  - lra.
  - repeat constructor; lra.
  - repeat apply Forall_cons; [left | right | right | apply Forall_nil];
      reflexivity.
Defined.

(** [loss_entry_monotone] between the predictions one quarter and one
    half. *)
Lemma loss_entry_monotone_witness :
  exists at_p_1 at_q_1 at_p_0 at_q_0,
    weigthed_binary_crossentropy1 (Fin (/ 4)) (Fin 1) (Fin 1) (Fin 2) = Fin at_p_1 /\
    weigthed_binary_crossentropy1 (Fin (/ 2)) (Fin 1) (Fin 1) (Fin 2) = Fin at_q_1 /\
    weigthed_binary_crossentropy1 (Fin (/ 4)) (Fin 0) (Fin 1) (Fin 2) = Fin at_p_0 /\
    weigthed_binary_crossentropy1 (Fin (/ 2)) (Fin 0) (Fin 1) (Fin 2) = Fin at_q_0 /\
    (at_q_1 <= at_p_1)%R /\
    (at_p_0 <= at_q_0)%R.
Proof.
  apply (loss_entry_monotone (/ 4)%R (/ 2)%R 1%R 2%R); lra.
Defined.

(* ================================================================== *)
(** ** Weight files *)

Lemma close_archive_head (filename : string) (opened : list string) :
  close_archive filename (filename :: opened) = opened.
Proof. cbn [close_archive]. now rewrite String.eqb_refl. Qed.

Lemma comprehension_values {A B : Type} (g : A -> load_exn + B) (l : list A)
    (values : list B) (da : A) (db : B) :
  length l = length values ->
  (forall i, (i < length l)%nat -> g (nth i l da) = inr (nth i values db)) ->
  comprehension g l = inr values.
Proof.
  revert values. induction l as [|a l IH]; intros [|v values] Hlen Hg;
    try discriminate; [reflexivity|].
  pose proof (Hg 0%nat ltac:(cbn; lia)) as H0. cbn [nth] in H0.
  cbn [comprehension]. rewrite H0.
  rewrite (IH values); [reflexivity | now injection Hlen |].
  intros i Hi. apply (Hg (S i)). cbn. lia.
Qed.

Lemma comprehension_first_error {A B : Type} (g : A -> load_exn + B)
    (before after : list A) (a : A) (e : load_exn) :
  (forall x, In x before -> exists b, g x = inr b) ->
  g a = inl e ->
  comprehension g (before ++ a :: after) = inl e.
Proof.
  intros Hb Ha. induction before as [|x before IH]; cbn [app comprehension].
  - now rewrite Ha.
  - destruct (Hb x (or_introl eq_refl)) as [b ->].
    rewrite IH; [reflexivity|]. intros y Hy. apply Hb. now right.
Qed.

Lemma arr_key_inj (i j : nat) :
  ("arr_" ++ py_format_d i)%string = ("arr_" ++ py_format_d j)%string -> i = j.
Proof. intros H. injection H as H. now apply py_format_d_inj. Qed.

(** An archive written by positions gives back, under the name of
    position [i], the array stored there. *)
Lemma savez_getitem (values : list (ndarray Q)) (start i : nat) (d : ndarray Q) :
  (i < length values)%nat ->
  find (fun kv => String.eqb (fst kv) ("arr_" ++ py_format_d (start + i))%string)
       (map (fun iv => (("arr_" ++ py_format_d (fst iv))%string, snd iv))
            (combine (seq start (length values)) values))
  = Some (("arr_" ++ py_format_d (start + i))%string, nth i values d).
Proof.
  revert start i. induction values as [|v values IH]; intros start i Hi;
    cbn [length] in Hi; [lia|].
  cbn [length seq combine map find fst snd].
  destruct i as [|i].
  - rewrite Nat.add_0_r, String.eqb_refl. reflexivity.
  - destruct (String.eqb_spec ("arr_" ++ py_format_d start)
                              ("arr_" ++ py_format_d (start + S i))) as [He|_].
    + apply arr_key_inj in He. lia.
    + replace (start + S i)%nat with (S start + i)%nat by lia.
      cbn [nth]. apply IH. lia.
Qed.

Lemma read_param_values_savez (values : list (ndarray Q)) :
  read_param_values (np_savez values) = inr values.
Proof.
  unfold read_param_values, np_savez.
  rewrite length_map, length_combine, length_seq, Nat.min_id.
  apply comprehension_values with (da := 0%nat) (db := NdArray [] []);
    [now rewrite length_seq|].
  intros i Hi. rewrite length_seq in Hi. rewrite seq_nth by assumption.
  unfold npz_getitem.
  now rewrite (savez_getitem values 0 i (NdArray [] []) Hi).
Qed.

Section ReadModel.

Variables (set_all_param_values : param_setter) (filename : string)
          (network : layer * layer).

(** X17.  [read_model] never leaves the weight file open: whether it
    returns, a name is missing in the archive or
    [set_all_param_values] raises, the archives that are open afterwards
    are those that were open before; a file that does not exist raises
    before anything is opened or set. *)
Theorem read_model_releases_archive (w : weights_world) :
  open_archives (snd (read_model set_all_param_values filename network w))
  = open_archives w /\
  (disk w filename = None ->
   read_model set_all_param_values filename network w
   = (inl (LoadIOError filename), w)).
Proof.
  unfold read_model. split.
  - destruct (disk w filename) as [f|]; [|reflexivity].
    destruct (read_param_values f) as [e|values].
    + cbn [snd open_archives]. apply close_archive_head.
    + destruct (set_all_param_values network values (param_values w)) as [r ps].
      cbn [snd open_archives]. apply close_archive_head.
  - now intros ->.
Qed.

(** X18.  When the archive has [n] entries and lacks the name [arr_i] for
    some [i < n] (an archive that was not written by positions), with
    [arr_0 .. arr_(i-1)] present, [read_model] raises the [KeyError] of
    [arr_i]; the network's parameters are not touched and the file is
    closed. *)
Theorem read_model_missing_key (w : weights_world) (f : npz) (i : nat) :
  disk w filename = Some f ->
  (i < length f)%nat ->
  (forall j, (j < i)%nat ->
     exists a, npz_getitem f ("arr_" ++ py_format_d j)%string = inr a) ->
  find (fun kv => String.eqb (fst kv) ("arr_" ++ py_format_d i)%string) f = None ->
  read_model set_all_param_values filename network w
  = (inl (LoadKeyError ("arr_" ++ py_format_d i)%string),
     WeightsWorld (disk w) (open_archives w) (param_values w)).
Proof.
  intros Hf Hi Hbefore Hmiss. unfold read_model. rewrite Hf.
  assert (Hr : read_param_values f
               = inl (LoadKeyError ("arr_" ++ py_format_d i)%string)).
  { unfold read_param_values.
    replace (length f) with (i + S (length f - S i))%nat by lia.
    rewrite seq_app. cbn [seq Nat.add].
    apply comprehension_first_error.
    - intros j Hj. apply in_seq in Hj. apply Hbefore. lia.
    - unfold npz_getitem. now rewrite Hmiss. }
  rewrite Hr. now rewrite close_archive_head.
Qed.

(** X19.  Round trip with [np.savez(filename, *values)]: from an archive
    written by positions [read_model] hands [set_all_param_values] exactly
    the arrays that were saved, in their order; it ends as that call ends
    and leaves the parameter values that call leaves, with the file
    closed. *)
Theorem read_model_savez_round_trip (w : weights_world)
    (values : list (ndarray Q)) :
  disk w filename = Some (np_savez values) ->
  let set := set_all_param_values network values (param_values w) in
  read_model set_all_param_values filename network w
  = (match fst set with
     | Ok _ => inr tt
     | Raise e => inl (LoadSetError e)
     end,
     WeightsWorld (disk w) (open_archives w) (snd set)).
Proof.
  intros Hf. cbv zeta. unfold read_model.
  rewrite Hf, read_param_values_savez.
  destruct (set_all_param_values network values (param_values w)) as [r ps].
  now rewrite close_archive_head.
Qed.

End ReadModel.

(** Two weight arrays, and a disk that holds them under the name
    "weights.npz", written by positions. *)
Lemma read_model_savez_round_trip_witness :
  let values := [NdArray [2; 1]%nat [1; 2]%Q; NdArray [1]%nat [3]%Q] in
  let w := WeightsWorld
             (fun name => if String.eqb name "weights.npz"
                          then Some (np_savez values) else None)
             [] [NdArray [2; 1]%nat [0; 0]%Q; NdArray [1]%nat [0]%Q] in
  read_model demo_setter "weights.npz" demo_network w
  = (inr tt, WeightsWorld (disk w) [] values).
Proof.
  exact (read_model_savez_round_trip demo_setter "weights.npz" demo_network
           (WeightsWorld
              (fun name => if String.eqb name "weights.npz"
                           then Some (np_savez
                                        [NdArray [2; 1]%nat [1; 2]%Q;
                                         NdArray [1]%nat [3]%Q])
                           else None)
              [] [NdArray [2; 1]%nat [0; 0]%Q; NdArray [1]%nat [0]%Q])
           [NdArray [2; 1]%nat [1; 2]%Q; NdArray [1]%nat [3]%Q] eq_refl).
Defined.

(** An archive of two entries of which only the first was stored by
    position. *)
Lemma read_model_missing_key_witness :
  let f := [("arr_0", NdArray [1]%nat [3]%Q); ("bias", NdArray [1]%nat [4]%Q)] in
  let w := WeightsWorld (fun _ => Some f) [] [] in
  read_model demo_setter "weights.npz" demo_network w
  = (inl (LoadKeyError "arr_1"), WeightsWorld (disk w) [] []).
Proof.
  apply (read_model_missing_key demo_setter "weights.npz" demo_network
           (WeightsWorld
              (fun _ => Some [("arr_0", NdArray [1]%nat [3]%Q);
                              ("bias", NdArray [1]%nat [4]%Q)]) [] [])
           [("arr_0", NdArray [1]%nat [3]%Q); ("bias", NdArray [1]%nat [4]%Q)] 1).
  - reflexivity.
  - simpl. lia.
  - intros j Hj. assert (j = 0)%nat as -> by lia. eexists. reflexivity.
  - reflexivity.
Defined.
